(** * Recommendation microservice ([main.py]): model and verified properties

    The service answers [GET /recommendations/{user_id}?top_n=<int>].  Each
    request loads the [preferences] and [courses] collections into pandas
    frames, normalises the [typeRessource] labels, selects the labels stored
    for the user, keeps the courses whose label is one of them and returns
    the first [top_n].

    The development follows the layers of the source:
    - [Py]: the Python values the code manipulates (strings with [lower] and
      [strip], exceptions, results of a call that may raise);
    - [pd]: the pandas operations that [main.py] uses, on frames whose rows
      are dictionaries;
    - [main]: the four functions of [main.py], line by line.

    Logging has no effect on the value a call returns and is left out. *)

From Stdlib Require Import ZArith Ascii String.
From stdpp Require Import base decidable list strings gmap pretty.

Local Open Scope Z_scope.

(** ** Python values *)

Module Py.

(** A Python [str] is a sequence of code points.  The model takes the code
    points below 256, one per [ascii]; this covers every label and message
    of the source. *)

(** [str.isspace] on a single code point below 256: TAB..CR, FS..US, space,
    NEL and the no-break space. *)
Definition isspace (c : ascii) : bool :=
  let n := N_of_ascii c in
  ((9 <=? n) && (n <=? 13) || (28 <=? n) && (n <=? 32)
   || (n =? 133) || (n =? 160))%N.

(** [str.lower] on a single code point below 256: [A-Z] and the capital
    letters U+00C0..U+00DE (U+00D7, the multiplication sign, apart) move 32
    places up; every other code point is its own lower case. *)
Definition lower_char (c : ascii) : ascii :=
  let n := N_of_ascii c in
  if ((65 <=? n) && (n <=? 90)
      || (192 <=? n) && (n <=? 222) && negb (n =? 215))%N
  then ascii_of_N (n + 32) else c.

(** [s.lower()] *)
Fixpoint lower (s : string) : string :=
  match s with
  | EmptyString => EmptyString
  | String c s' => String (lower_char c) (lower s')
  end.

(** [s.lstrip()]: drop the leading white space. *)
Fixpoint lstrip (s : string) : string :=
  match s with
  | EmptyString => EmptyString
  | String c s' => if isspace c then lstrip s' else s
  end.

(** [s.rstrip()]: drop the trailing white space.  A character is dropped
    when it is white space and nothing survives to its right. *)
Fixpoint rstrip (s : string) : string :=
  match s with
  | EmptyString => EmptyString
  | String c s' =>
      match rstrip s' with
      | EmptyString => if isspace c then EmptyString else String c EmptyString
      | r => String c r
      end
  end.

(** [s.strip()] *)
Definition strip (s : string) : string := lstrip (rstrip s).

(** The exceptions that the code raises or can meet: the [KeyError] of a
    frame that lacks the columns asked for, and FastAPI's [HTTPException],
    which is a subclass of [Exception] like any other.  The detail of an
    [HTTPException] is either a literal or an f-string [f"{prefix}{str(e)}"]
    over a caught exception [e]; the latter is kept in that form. *)
Inductive exception : Type :=
  | KeyError (keys : list string)
  | HTTPException (status_code : Z) (detail : message)
with message : Type :=
  | Text (s : string)
  | Fstr (prefix : string) (e : exception).

(** The outcome of a call: a returned value or a raised exception. *)
Inductive result (A : Type) : Type :=
  | Return (a : A)
  | Raise (e : exception).
Global Arguments Return {A} a.
Global Arguments Raise {A} e.

Global Instance result_ret : MRet result := λ A a, Return a.
Global Instance result_bind : MBind result := λ A B k m,
  match m with
  | Return a => k a
  | Raise e => Raise e
  end.

(** [try: m  except Exception as e: h e] *)
Definition try_except {A} (m : result A) (h : exception → result A) : result A :=
  match m with
  | Return a => Return a
  | Raise e => h e
  end.

End Py.

(** ** pandas *)

Module pd.

(** The values a frame holds: the missing-value marker [NaN], [None],
    strings, [ObjectId]s (by their hexadecimal form) and integers. *)
Inductive cell : Type :=
  | NaN
  | PyNone
  | Str (s : string)
  | Oid (hex : string)
  | Num (n : Z).

Global Instance cell_eq_dec : EqDecision cell.
Proof. solve_decision. Defined.

Definition Series : Type := list cell.

(** A frame is a list of column names and a list of rows.  A row is a
    dictionary; where it has no entry for a column the frame reads [NaN],
    and an entry outside [columns] is not part of the frame. *)
Record DataFrame : Type := mkDataFrame {
  columns : list string;
  rows : list (gmap string cell)
}.

Definition at_ (r : gmap string cell) (c : string) : cell := default NaN (r !! c).

Definition keys (d : gmap string cell) : list string := (map_to_list d).*1.

(** [pd.DataFrame(data)] for a list of dictionaries: the columns are the
    keys met in [data]. *)
Definition from_records (data : list (gmap string cell)) : DataFrame :=
  {| columns := remove_dups (data ≫= keys); rows := data |}.

(** [df[c]] *)
Definition getitem (df : DataFrame) (c : string) : Py.result Series :=
  if decide (c ∈ columns df)
  then Py.Return ((λ r, at_ r c) <$> rows df)
  else Py.Raise (Py.KeyError [c]).

(** [df[c] = s], for a series [s] with one cell per row *)
Definition setitem (df : DataFrame) (c : string) (s : Series) : DataFrame :=
  {| columns := if decide (c ∈ columns df) then columns df else columns df ++ [c];
     rows := zip_with (λ r v, <[c:=v]> r) (rows df) s |}.

(** [df[[c1, ..., cn]]] *)
Definition getitems (df : DataFrame) (cs : list string) : Py.result DataFrame :=
  match filter (λ c, c ∉ columns df) cs with
  | [] => Py.Return {| columns := cs; rows := rows df |}
  | missing => Py.Raise (Py.KeyError missing)
  end.

(** Keep the entries at the positions where the mask holds. *)
Fixpoint select {A} (l : list A) (mask : list bool) : list A :=
  match l, mask with
  | x :: l', b :: mask' => if b then x :: select l' mask' else select l' mask'
  | _, _ => []
  end.

(** [df[mask]] for a boolean series [mask] *)
Definition loc (df : DataFrame) (mask : list bool) : DataFrame :=
  {| columns := columns df; rows := select (rows df) mask |}.

(** [s == v] for a string [v] *)
Definition eq (s : Series) (v : string) : list bool :=
  (λ c, bool_decide (c = Str v)) <$> s.

(** [s.isin(values)] *)
Definition isin (s : Series) (values : list cell) : list bool :=
  (λ c, bool_decide (c ∈ values)) <$> s.

Definition isna (c : cell) : bool :=
  match c with NaN | PyNone => true | _ => false end.

(** [s.fillna(v)] *)
Definition fillna (s : Series) (v : cell) : Series :=
  (λ c, if isna c then v else c) <$> s.

(** A method of the [.str] accessor applied to one cell: a string is
    mapped, a missing value stays, anything else gives [NaN]. *)
Definition str_map (f : string → string) (c : cell) : cell :=
  match c with
  | Str x => Str (f x)
  | NaN => NaN
  | PyNone => PyNone
  | Oid _ | Num _ => NaN
  end.

(** [s.str.lower()] and [s.str.strip()] *)
Definition str_lower (s : Series) : Series := str_map Py.lower <$> s.
Definition str_strip (s : Series) : Series := str_map Py.strip <$> s.

(** [s.replace(a, b)] for two strings: the cells equal to [a] become [b]. *)
Definition replace (s : Series) (a b : string) : Series :=
  (λ c, if decide (c = Str a) then Str b else c) <$> s.

(** [str(x)] of a cell *)
Definition py_str (c : cell) : string :=
  match c with
  | NaN => "nan"
  | PyNone => "None"
  | Str x => x
  | Oid hex => hex
  | Num n => pretty n
  end.

(** [s.astype(str)] and [s.apply(str)] *)
Definition astype_str (s : Series) : Series := (λ c, Str (py_str c)) <$> s.
Definition apply_str (s : Series) : Series := (λ c, Str (py_str c)) <$> s.

(** [df.empty]: no row or no column. *)
Definition empty (df : DataFrame) : bool :=
  bool_decide (rows df = []) || bool_decide (columns df = []).

(** [df.head(n)]: the first [n] rows, or all but the last [-n] when [n] is
    negative. *)
Definition head (df : DataFrame) (n : Z) : DataFrame :=
  {| columns := columns df;
     rows := if (0 <=? n)%Z then take (Z.to_nat n) (rows df)
             else take (length (rows df) - Z.to_nat (- n)) (rows df) |}.

(** One row as a dictionary over the given columns. *)
Definition record (cs : list string) (r : gmap string cell) : gmap string cell :=
  list_to_map ((λ c, (c, at_ r c)) <$> cs).

(** [df.to_dict(orient='records')] *)
Definition to_dict_records (df : DataFrame) : list (gmap string cell) :=
  record (columns df) <$> rows df.

(** [s.tolist()] *)
Definition tolist (s : Series) : list cell := s.

End pd.

(** ** The store *)

Module db.

(** A document of the [preferences] collection.  A field is either absent
    from the document or present; the user is an [ObjectId], held by its
    string form, and the label is a string.  Null fields of a preference
    are not modelled. *)
Record Preference : Type := mkPreference {
  pref_user : option string;
  pref_typeRessource : option string
}.

(** The label of a course is absent, null or a string. *)
Inductive field : Type :=
  | Absent
  | Null
  | Value (s : string).

(** A document of the [courses] collection.  MongoDB gives every document
    an [_id]; the other fields may be absent.  The price is a number, for
    which the stored integer stands.  pandas holds a price column with a
    gap as [float64]: the price in a frame or in a returned dictionary is
    to be read up to that conversion. *)
Record Course : Type := mkCourse {
  course_id : string;
  course_title : option string;
  course_typeRessource : field;
  course_level : option string;
  course_price : option Z
}.

(** The database [db] with the three collections that [load_data] reads. *)
Record t : Type := mk {
  users : list (gmap string pd.cell);
  preferences : list Preference;
  courses : list Course
}.

(** The dictionaries that [find()] yields. *)
Definition entry (k : string) (v : option pd.cell)
    (d : gmap string pd.cell) : gmap string pd.cell :=
  match v with
  | Some c => <[k:=c]> d
  | None => d
  end.

Definition preference_dict (p : Preference) : gmap string pd.cell :=
  entry "user" (pd.Oid <$> pref_user p)
    (entry "typeRessource" (pd.Str <$> pref_typeRessource p) ∅).

Definition field_cell (f : field) : option pd.cell :=
  match f with
  | Absent => None
  | Null => Some pd.PyNone
  | Value s => Some (pd.Str s)
  end.

Definition course_dict (c : Course) : gmap string pd.cell :=
  entry "_id" (Some (pd.Oid (course_id c)))
    (entry "title" (pd.Str <$> course_title c)
      (entry "typeRessource" (field_cell (course_typeRessource c))
        (entry "level" (pd.Str <$> course_level c)
          (entry "price" (pd.Num <$> course_price c) ∅)))).

End db.

(** ** [main.py] *)

Module main.

Import Py pd.

(** The body the endpoint returns, before FastAPI serialises it. *)
Record RecommendationResponse : Type := mkResponse {
  user_id : string;
  preferences : list cell;
  recommendations : list (gmap string cell)
}.

(** [load_data()] *)
Definition load_data (d : db.t) : result (DataFrame * DataFrame) :=
  try_except
    (let users_df := from_records (db.users d) in
     let prefs_df := from_records (db.preference_dict <$> db.preferences d) in
     let courses_df := from_records (db.course_dict <$> db.courses d) in
     (* Preprocess courses *)
     s ← getitem courses_df "typeRessource";
     let courses_df := setitem courses_df "typeRessource" (fillna s (Str "other")) in
     s ← getitem courses_df "typeRessource";
     let courses_df := setitem courses_df "typeRessource" (str_strip (str_lower s)) in
     s ← getitem courses_df "_id";
     let courses_df := setitem courses_df "_id" (astype_str s) in
     (* Preprocess preferences *)
     s ← getitem prefs_df "typeRessource";
     let prefs_df := setitem prefs_df "typeRessource" (str_strip (str_lower s)) in
     s ← getitem prefs_df "typeRessource";
     let prefs_df :=
       setitem prefs_df "typeRessource"
         (replace s " interactive exercice" "interactive exercice") in
     s ← getitem prefs_df "user";
     let prefs_df := setitem prefs_df "user" (apply_str s) in
     mret (prefs_df, courses_df))
    (λ e, Raise (HTTPException 500 (Fstr "Error loading data: " e))).

(** [get_user_preferences(user_id, prefs_df)] *)
Definition get_user_preferences (user_id : string) (prefs_df : DataFrame) : list cell :=
  match
    (u ← getitem prefs_df "user";
     s ← getitem (loc prefs_df (eq u user_id)) "typeRessource";
     mret (tolist s))
  with
  | Return user_prefs => if bool_decide (user_prefs = []) then [] else user_prefs
  | Raise _ => []
  end.

(** [recommend_courses(user_id, prefs_df, courses_df, top_n)] *)
Definition recommend_courses (user_id : string) (prefs_df courses_df : DataFrame)
    (top_n : Z) : result (list (gmap string cell)) :=
  try_except
    (let user_prefs := get_user_preferences user_id prefs_df in
     if bool_decide (user_prefs = []) then mret []
     else
       (* Filter courses that match preferences *)
       s ← getitem courses_df "typeRessource";
       let matched_courses := loc courses_df (isin s user_prefs) in
       if empty matched_courses then mret []
       else
         (* Select top N courses *)
         sel ← getitems matched_courses ["_id"; "title"; "typeRessource"; "level"; "price"];
         let recommended_courses := to_dict_records (head sel top_n) in
         mret recommended_courses)
    (λ e, Raise (HTTPException 500 (Fstr "Error recommending courses: " e))).

(** [get_recommendations(user_id, top_n)], reading the database [d]. *)
Definition get_recommendations (d : db.t) (user_id : string) (top_n : Z)
    : result RecommendationResponse :=
  try_except
    (if (top_n <? 1) || (top_n >? 50)
     then Raise (HTTPException 400 (Text "top_n must be between 1 and 50"))
     else
       (* Load data *)
       '(prefs_df, courses_df) ← load_data d;
       (* Get recommendations *)
       recommendations ← recommend_courses user_id prefs_df courses_df top_n;
       (* Prepare response *)
       mret {| user_id := user_id;
               preferences := get_user_preferences user_id prefs_df;
               recommendations := recommendations |})
    (λ e, Raise (HTTPException 500 (Fstr "Error processing recommendations: " e))).

(** The status of the HTTP response: 200 for a returned body, the status
    of a raised [HTTPException], 500 for any other exception.  The check of
    a returned body against [response_model], which FastAPI runs after the
    function has returned, is not part of the model. *)
Definition status (r : result RecommendationResponse) : Z :=
  match r with
  | Return _ => 200
  | Raise (HTTPException status_code _) => status_code
  | Raise _ => 500
  end.

End main.

(** ** Definitions used to state the properties *)

Import Py pd.

(** The value lines 69-70 of [load_data] leave in place of a preference
    label [x]: lower case, strip, then the replacement of the one variant
    spelling. *)
Definition normalize (x : string) : string :=
  let y := strip (lower x) in
  if decide (y = " interactive exercice") then "interactive exercice" else y.

(** The same three steps on a whole column. *)
Definition normalize_series (s : Series) : Series :=
  replace (str_strip (str_lower s)) " interactive exercice" "interactive exercice".

(** Lower case followed by strip alone, without the replacement: what the
    three steps are compared with. *)
Definition lower_then_strip (s : Series) : Series := str_strip (str_lower s).

(** Lines 64-65 of [load_data] on one cell of the catalog. *)
Definition normalize_course_cell (c : cell) : cell :=
  str_map strip (str_map lower (if isna c then Str "other" else c)).

(** The string form of the user a preference is stored under
    ([prefs_df['user'].apply(str)]); a document without the field reads
    as [nan]. *)
Definition user_str (p : db.Preference) : string :=
  py_str (at_ (db.preference_dict p) "user").

(** The preferences stored for a user, in the order of the collection. *)
Definition stored_preferences (d : db.t) (u : string) : list db.Preference :=
  filter (λ p, user_str p = u) (db.preferences d).

(** The label of a stored preference once normalised. *)
Definition preference_label (p : db.Preference) : cell :=
  match db.pref_typeRessource p with
  | Some x => Str (normalize x)
  | None => NaN
  end.

Definition opt_cell {A} (f : A → cell) (o : option A) : cell :=
  match o with
  | Some a => f a
  | None => NaN
  end.

(** The dictionary returned for a course of the catalog. *)
Definition course_record (c : db.Course) : gmap string cell :=
  <["_id" := Str (db.course_id c)]>
  (<["title" := opt_cell Str (db.course_title c)]>
  (<["typeRessource" := normalize_course_cell (default NaN (db.field_cell (db.course_typeRessource c)))]>
  (<["level" := opt_cell Str (db.course_level c)]>
  (<["price" := opt_cell Num (db.course_price c)]> ∅)))).

(** The catalog snapshot, one dictionary per course, in catalog order. *)
Definition catalog (d : db.t) : list (gmap string cell) :=
  course_record <$> db.courses d.

(** The row of [prefs_df] that [load_data] derives from a preference:
    the three assignments of lines 69-71 on that row. *)
Definition preference_row (p : db.Preference) : gmap string cell :=
  let r := db.preference_dict p in
  let r := <["typeRessource" := str_map strip (str_map lower (at_ r "typeRessource"))]> r in
  let r := <["typeRessource" :=
              if decide (at_ r "typeRessource" = Str " interactive exercice")
              then Str "interactive exercice" else at_ r "typeRessource"]> r in
  <["user" := Str (py_str (at_ r "user"))]> r.

(** The row of [courses_df] that [load_data] derives from a course: the
    three assignments of lines 64-66 on that row. *)
Definition course_row (c : db.Course) : gmap string cell :=
  let r := db.course_dict c in
  let r := <["typeRessource" :=
              if isna (at_ r "typeRessource") then Str "other" else at_ r "typeRessource"]> r in
  let r := <["typeRessource" := str_map strip (str_map lower (at_ r "typeRessource"))]> r in
  <["_id" := Str (py_str (at_ r "_id"))]> r.

(** The columns that [recommend_courses] returns. *)
Definition returned_columns : list string :=
  ["_id"; "title"; "typeRessource"; "level"; "price"].

(** A frame with one column rewritten cell by cell. *)
Definition update_column (df : DataFrame) (c : string) (g : cell → cell) : DataFrame :=
  {| columns := columns df; rows := (λ r, <[c := g (at_ r c)]> r) <$> rows df |}.

(** The two frames as first built from the collections. *)
Definition raw_prefs (d : db.t) : DataFrame :=
  from_records (db.preference_dict <$> db.preferences d).
Definition raw_courses (d : db.t) : DataFrame :=
  from_records (db.course_dict <$> db.courses d).

(** The frames [load_data] returns when every column it reads exists. *)
Definition prefs_frame (d : db.t) : DataFrame :=
  {| columns := columns (raw_prefs d); rows := preference_row <$> db.preferences d |}.
Definition courses_frame (d : db.t) : DataFrame :=
  {| columns := columns (raw_courses d); rows := course_row <$> db.courses d |}.

(** The columns [load_data] reads are there: some course carries a
    [typeRessource] entry, some preference a [typeRessource] entry and some
    preference a [user] entry. *)
Definition loadable (d : db.t) : Prop :=
  "typeRessource" ∈ columns (raw_courses d)
  ∧ "typeRessource" ∈ columns (raw_prefs d)
  ∧ "user" ∈ columns (raw_prefs d).

Global Instance loadable_dec d : Decision (loadable d).
Proof. unfold loadable. apply _. Defined.

(** A returned dictionary matches a list of preferred labels when its
    label is one of them. *)
Definition matches (prefs : list cell) (r : gmap string cell) : Prop :=
  at_ r "typeRessource" ∈ prefs.

Global Instance matches_dec prefs r : Decision (matches prefs r).
Proof. unfold matches. apply _. Defined.
Global Typeclasses Opaque matches.

(** The number of matching dictionaries before position [i] of [l]: the
    place the [i]-th one takes among the matches. *)
Definition rank (prefs : list cell) (l : list (gmap string cell)) (i : nat) : nat :=
  length (filter (matches prefs) (take i l)).

(** A small store used to exercise the statements below: three users with
    one preference each, and four courses, one of them without a label. *)
Definition sample_courses : list db.Course :=
  [ db.mkCourse "c1" (Some "Intro") (db.Value "Video") (Some "easy") (Some 5);
    db.mkCourse "c2" (Some "Quiz") (db.Value "quiz") (Some "easy") (Some 0);
    db.mkCourse "c3" (Some "Misc") db.Absent (Some "hard") None;
    db.mkCourse "c4" (Some "Outro") (db.Value "VIDEO ") (Some "hard") (Some 7) ].

Definition sample_preferences : list db.Preference :=
  [ db.mkPreference (Some "u1") (Some " Video ");
    db.mkPreference (Some "u2") (Some " OTHER");
    db.mkPreference (Some "u3") None ].

Definition sample_db : db.t := db.mk [] sample_preferences sample_courses.

(** What the endpoint returns on [sample_db] for user [u1] and
    [top_n = 10]: the two video courses, in catalog order. *)
Definition sample_response : main.RecommendationResponse :=
  {| main.user_id := "u1";
     main.preferences := [Str "video"];
     main.recommendations :=
       [ course_record (db.mkCourse "c1" (Some "Intro") (db.Value "Video") (Some "easy") (Some 5));
         course_record (db.mkCourse "c4" (Some "Outro") (db.Value "VIDEO ") (Some "hard") (Some 7)) ] |}.

(** The preferences of [sample_db] over a catalog without any course. *)
Definition empty_catalog_db : db.t := db.mk [] sample_preferences [].

(** A course with its [typeRessource] entry taken away. *)
Definition without_label (c : db.Course) : db.Course :=
  db.mkCourse (db.course_id c) (db.course_title c) db.Absent
    (db.course_level c) (db.course_price c).

(** One user who likes [other] and one course: without a [typeRessource]
    entry in [unlabelled_db], with a null one in [null_label_db]. *)
Definition other_preference : db.Preference :=
  db.mkPreference (Some "u1") (Some "other").
Definition unlabelled_db : db.t :=
  db.mk [] [other_preference]
    [db.mkCourse "c1" (Some "Misc") db.Absent (Some "hard") (Some 3)].
Definition null_label_db : db.t :=
  db.mk [] [other_preference]
    [db.mkCourse "c1" (Some "Misc") db.Null (Some "hard") (Some 3)].



(** [head(n)] on the list of rows, as [pd.head] takes them. *)
Definition first_rows {A} (l : list A) (n : Z) : list A :=
  if (0 <=? n)%Z then take (Z.to_nat n) l
  else take (length l - Z.to_nat (- n)) l.

(** The returned columns that the catalog frame lacks. *)
Definition missing_columns (d : db.t) : list string :=
  filter (λ c, c ∉ columns (raw_courses d)) returned_columns.

(** The label a course is compared under before lower case and strip:
    its own, or [other] when it is absent or null. *)
Definition course_label (c : db.Course) : string :=
  match db.course_typeRessource c with
  | db.Value x => x
  | db.Absent | db.Null => "other"
  end.

(** The store side of [loadable]: a course with a [typeRessource] entry
    (null counts), a preference with a label and a preference with a user. *)
Definition store_loadable (d : db.t) : Prop :=
  (∃ c, c ∈ db.courses d ∧ db.course_typeRessource c ≠ db.Absent)
  ∧ (∃ p, p ∈ db.preferences d ∧ is_Some (db.pref_typeRessource p))
  ∧ (∃ p, p ∈ db.preferences d ∧ is_Some (db.pref_user p)).

(** The preferred labels of a user on the loaded snapshot, and the courses
    of the catalog that match them. *)
Definition user_labels (d : db.t) (u : string) : list cell :=
  preference_label <$> stored_preferences d u.
Definition found_courses (d : db.t) (u : string) : list (gmap string cell) :=
  filter (matches (user_labels d u)) (catalog d).

(** A catalog in which no course has a price, with one user who likes
    videos twice over and one preference stored without a user. *)
Definition priceless_courses : list db.Course :=
  [ db.mkCourse "c1" (Some "Intro") (db.Value "Video") (Some "easy") None;
    db.mkCourse "c2" (Some "Quiz") (db.Value "quiz") (Some "easy") None ].

Definition mixed_preferences : list db.Preference :=
  [ db.mkPreference (Some "u1") (Some "video");
    db.mkPreference (Some "u1") (Some " VIDEO");
    db.mkPreference (Some "u2") (Some "Video ");
    db.mkPreference None (Some "quiz") ].

Definition priceless_db : db.t := db.mk [] mixed_preferences priceless_courses.
Definition mixed_db : db.t := db.mk [] mixed_preferences sample_courses.

(** ** Python strings *)

Section strings.

Lemma lower_char_idem c : lower_char (lower_char c) = lower_char c.
Proof. destruct c as [[] [] [] [] [] [] [] []]; reflexivity. Qed.

Lemma isspace_lower_char c : isspace (lower_char c) = isspace c.
Proof. destruct c as [[] [] [] [] [] [] [] []]; reflexivity. Qed.

Lemma lower_idem s : lower (lower s) = lower s.
Proof. induction s as [|c s IH]; simpl; [done|]. by rewrite lower_char_idem, IH. Qed.

Lemma lstrip_lower s : lstrip (lower s) = lower (lstrip s).
Proof.
  induction s as [|c s IH]; simpl; [done|].
  rewrite isspace_lower_char. by destruct (isspace c).
Qed.

Lemma lower_eq_empty s : lower s = EmptyString ↔ s = EmptyString.
Proof. by destruct s. Qed.

Lemma rstrip_lower s : rstrip (lower s) = lower (rstrip s).
Proof.
  induction s as [|c s IH]; simpl; [done|].
  rewrite IH, isspace_lower_char.
  destruct (rstrip s) as [|c' r]; simpl; [|done].
  by destruct (isspace c).
Qed.

Lemma strip_lower s : strip (lower s) = lower (strip s).
Proof. unfold strip. by rewrite rstrip_lower, lstrip_lower. Qed.

Lemma lstrip_head s c t : lstrip s = String c t → isspace c = false.
Proof.
  induction s as [|a s IH]; simpl; [done|].
  destruct (isspace a) eqn:Ha; [done|]. intros [= <- _]. done.
Qed.

Lemma lstrip_idem s : lstrip (lstrip s) = lstrip s.
Proof.
  destruct (lstrip s) as [|c t] eqn:E; [done|].
  simpl. by rewrite (lstrip_head _ _ _ E).
Qed.

Lemma rstrip_idem s : rstrip (rstrip s) = rstrip s.
Proof.
  induction s as [|c s IH]; simpl; [done|].
  destruct (rstrip s) as [|c' r] eqn:E.
  - destruct (isspace c) eqn:Hc; simpl; [done|]. by rewrite Hc.
  - change (rstrip (String c (String c' r))) with
      (match rstrip (String c' r) with
       | EmptyString => if isspace c then EmptyString else String c EmptyString
       | r' => String c r'
       end).
    by rewrite IH.
Qed.

Lemma rstrip_lstrip s : rstrip (lstrip s) = lstrip (rstrip s).
Proof.
  induction s as [|c s IH]; simpl; [done|].
  destruct (isspace c) eqn:Hc.
  - rewrite IH. destruct (rstrip s) as [|c' r]; simpl; by rewrite ?Hc.
  - simpl. destruct (rstrip s) as [|c' r]; simpl; by rewrite Hc.
Qed.

Lemma strip_idem s : strip (strip s) = strip s.
Proof.
  unfold strip.
  by rewrite rstrip_lstrip, rstrip_idem, lstrip_idem.
Qed.

Lemma strip_head s c t : strip s = String c t → isspace c = false.
Proof. apply lstrip_head. Qed.

(** A stripped string is never the variant spelling, which starts with a
    space. *)
Lemma strip_ne_variant s : strip s ≠ " interactive exercice".
Proof. intros E. by apply strip_head in E. Qed.

End strings.

(** ** pandas operations *)

Section pandas.

Lemma select_bool_decide {A} (P : A → Prop) `{!∀ x, Decision (P x)} (l : list A) :
  select l ((λ x, bool_decide (P x)) <$> l) = filter P l.
Proof.
  induction l as [|x l IH]; csimpl; [done|].
  rewrite filter_cons, IH.
  destruct (decide (P x)); [by rewrite bool_decide_true|by rewrite bool_decide_false].
Qed.

Lemma zip_with_insert_fmap c (g : gmap string cell → cell) (l : list (gmap string cell)) :
  zip_with (λ r v, <[c:=v]> r) l (g <$> l) = (λ r, <[c := g r]> r) <$> l.
Proof. induction l as [|r l IH]; csimpl; [done|]. by rewrite IH. Qed.

Lemma getitem_Return df c :
  c ∈ columns df → getitem df c = Return ((λ r, at_ r c) <$> rows df).
Proof. intros H. unfold getitem. by rewrite decide_True. Qed.

Lemma getitem_Raise df c :
  c ∉ columns df → getitem df c = Raise (KeyError [c]).
Proof. intros H. unfold getitem. by rewrite decide_False. Qed.

(** Assigning to an existing column a function of that column. *)
Lemma setitem_column df c (g : cell → cell) :
  c ∈ columns df →
  setitem df c (g <$> ((λ r, at_ r c) <$> rows df))
  = {| columns := columns df; rows := (λ r, <[c := g (at_ r c)]> r) <$> rows df |}.
Proof.
  intros H. unfold setitem. rewrite decide_True by done. f_equal.
  rewrite <-list_fmap_compose. apply (zip_with_insert_fmap c (g ∘ (λ r, at_ r c))).
Qed.

Lemma elem_of_keys (d : gmap string cell) c : c ∈ keys d ↔ is_Some (d !! c).
Proof.
  unfold keys. rewrite list_elem_of_fmap. split.
  - intros ([k v] & -> & H). apply elem_of_map_to_list in H. by exists v.
  - intros [v H]. exists (c, v). split; [done|]. by apply elem_of_map_to_list.
Qed.

Lemma elem_of_columns_from_records data c :
  c ∈ columns (from_records data) ↔ ∃ d, d ∈ data ∧ is_Some (d !! c).
Proof.
  unfold from_records; simpl. rewrite elem_of_remove_dups, list_elem_of_bind.
  setoid_rewrite elem_of_keys. split; intros (d & ? & ?); eauto.
Qed.

Lemma select_isin (l : list (gmap string cell)) c values :
  select l (isin ((λ r, at_ r c) <$> l) values) = filter (λ r, at_ r c ∈ values) l.
Proof.
  unfold isin. rewrite <-list_fmap_compose.
  apply (select_bool_decide (λ r, at_ r c ∈ values)).
Qed.

Lemma loc_isin df c values :
  rows (loc df (isin ((λ r, at_ r c) <$> rows df) values))
  = filter (λ r, at_ r c ∈ values) (rows df).
Proof. apply select_isin. Qed.

Lemma loc_eq df c v :
  rows (loc df (eq ((λ r, at_ r c) <$> rows df) v))
  = filter (λ r, at_ r c = Str v) (rows df).
Proof.
  unfold loc, eq; simpl. rewrite <-list_fmap_compose.
  apply (select_bool_decide (λ r, at_ r c = Str v)).
Qed.

Lemma lookup_record cs r c :
  record cs r !! c = if decide (c ∈ cs) then Some (at_ r c) else None.
Proof.
  unfold record. induction cs as [|a cs IH]; csimpl.
  - by rewrite lookup_empty.
  - destruct (decide (a = c)) as [->|Hne].
    + rewrite lookup_insert_eq. by rewrite decide_True by left.
    + rewrite lookup_insert_ne by done. rewrite IH.
      destruct (decide (c ∈ cs)).
      * by rewrite decide_True by (by right).
      * rewrite decide_False; [done|]. by intros [->|?]%elem_of_cons.
Qed.

Lemma at_record cs r c : c ∈ cs → at_ (record cs r) c = at_ r c.
Proof. intros H. unfold at_ at 1. by rewrite lookup_record, decide_True. Qed.

End pandas.

(** ** [load_data] *)

Section load.

Lemma setitem_fillna df c v :
  c ∈ columns df →
  setitem df c (fillna ((λ r, at_ r c) <$> rows df) v)
  = update_column df c (λ x, if isna x then v else x).
Proof. intros H. unfold fillna. by rewrite setitem_column. Qed.

Lemma setitem_strip_lower df c :
  c ∈ columns df →
  setitem df c (str_strip (str_lower ((λ r, at_ r c) <$> rows df)))
  = update_column df c (λ x, str_map strip (str_map lower x)).
Proof.
  intros H. unfold str_strip, str_lower. rewrite <-list_fmap_compose.
  by rewrite (setitem_column df c (str_map strip ∘ str_map lower)).
Qed.

Lemma setitem_replace df c a b :
  c ∈ columns df →
  setitem df c (replace ((λ r, at_ r c) <$> rows df) a b)
  = update_column df c (λ x, if decide (x = Str a) then Str b else x).
Proof. intros H. unfold replace. by rewrite setitem_column. Qed.

Lemma setitem_astype_str df c :
  c ∈ columns df →
  setitem df c (astype_str ((λ r, at_ r c) <$> rows df))
  = update_column df c (λ x, Str (py_str x)).
Proof. intros H. unfold astype_str. by rewrite setitem_column. Qed.

Lemma setitem_apply_str df c :
  c ∈ columns df →
  setitem df c (apply_str ((λ r, at_ r c) <$> rows df))
  = update_column df c (λ x, Str (py_str x)).
Proof. intros H. unfold apply_str. by rewrite setitem_column. Qed.

Lemma course_dict_id c : db.course_dict c !! "_id" = Some (Oid (db.course_id c)).
Proof. unfold db.course_dict; simpl. apply lookup_insert_eq. Qed.

(** A catalog with a [typeRessource] column has a document, hence an [_id]
    column. *)
Lemma raw_courses_id d :
  "typeRessource" ∈ columns (raw_courses d) → "_id" ∈ columns (raw_courses d).
Proof.
  unfold raw_courses. rewrite !elem_of_columns_from_records.
  intros (r & Hr & _). exists r. split; [done|].
  apply list_elem_of_fmap in Hr as (c & -> & _). rewrite course_dict_id. eauto.
Qed.

Lemma load_data_Return d :
  loadable d → main.load_data d = Return (prefs_frame d, courses_frame d).
Proof.
  intros (Hc & Hp & Hu). pose proof (raw_courses_id d Hc) as Hi.
  unfold main.load_data. fold (raw_prefs d) (raw_courses d). cbv zeta.
  rewrite (getitem_Return (raw_courses d) "typeRessource") by exact Hc.
  cbn [mbind result_bind]. rewrite setitem_fillna by exact Hc.
  rewrite (getitem_Return (update_column (raw_courses d) _ _) "typeRessource") by exact Hc.
  cbn [mbind result_bind]. rewrite setitem_strip_lower by exact Hc.
  rewrite (getitem_Return _ "_id") by exact Hi.
  cbn [mbind result_bind]. rewrite setitem_astype_str by exact Hi.
  rewrite (getitem_Return (raw_prefs d) "typeRessource") by exact Hp.
  cbn [mbind result_bind]. rewrite setitem_strip_lower by exact Hp.
  rewrite (getitem_Return (update_column (raw_prefs d) _ _) "typeRessource") by exact Hp.
  cbn [mbind result_bind]. rewrite setitem_replace by exact Hp.
  rewrite (getitem_Return _ "user") by exact Hu.
  cbn [mbind result_bind]. rewrite setitem_apply_str by exact Hu.
  unfold try_except, mret, result_ret. do 2 f_equal.
  - unfold prefs_frame, update_column, raw_prefs, from_records; cbn [rows columns].
    f_equal. rewrite <-!list_fmap_compose. done.
  - unfold courses_frame, update_column, raw_courses, from_records; cbn [rows columns].
    f_equal. rewrite <-!list_fmap_compose. done.
Qed.

Lemma load_data_Raise d :
  ¬ loadable d →
  ∃ k, main.load_data d
       = Raise (HTTPException 500 (Fstr "Error loading data: " (KeyError [k]))).
Proof.
  intros Hn. unfold main.load_data. fold (raw_prefs d) (raw_courses d). cbv zeta.
  destruct (decide ("typeRessource" ∈ columns (raw_courses d))) as [Hc|Hc].
  2:{ exists "typeRessource".
      rewrite (getitem_Raise (raw_courses d) "typeRessource") by exact Hc.
      reflexivity. }
  pose proof (raw_courses_id d Hc) as Hi.
  rewrite (getitem_Return (raw_courses d) "typeRessource") by exact Hc.
  cbn [mbind result_bind]. rewrite setitem_fillna by exact Hc.
  rewrite (getitem_Return (update_column (raw_courses d) _ _) "typeRessource") by exact Hc.
  cbn [mbind result_bind]. rewrite setitem_strip_lower by exact Hc.
  rewrite (getitem_Return _ "_id") by exact Hi.
  cbn [mbind result_bind]. rewrite setitem_astype_str by exact Hi.
  destruct (decide ("typeRessource" ∈ columns (raw_prefs d))) as [Hp|Hp].
  2:{ exists "typeRessource".
      rewrite (getitem_Raise (raw_prefs d) "typeRessource") by exact Hp.
      reflexivity. }
  rewrite (getitem_Return (raw_prefs d) "typeRessource") by exact Hp.
  cbn [mbind result_bind]. rewrite setitem_strip_lower by exact Hp.
  rewrite (getitem_Return (update_column (raw_prefs d) _ _) "typeRessource") by exact Hp.
  cbn [mbind result_bind]. rewrite setitem_replace by exact Hp.
  destruct (decide ("user" ∈ columns (raw_prefs d))) as [Hu|Hu].
  { destruct Hn. by repeat split. }
  exists "user". rewrite (getitem_Raise _ "user") by exact Hu. reflexivity.
Qed.

Lemma load_data_inv d pf cf :
  main.load_data d = Return (pf, cf) →
  loadable d ∧ pf = prefs_frame d ∧ cf = courses_frame d.
Proof.
  intros H. destruct (decide (loadable d)) as [Hl|Hl].
  - rewrite (load_data_Return d Hl) in H. by injection H as <- <-.
  - destruct (load_data_Raise d Hl) as [k Hk]. congruence.
Qed.

End load.

(** ** The loaded frames, row by row *)

Section rows.

Lemma filter_fmap {A B} (f : A → B) (P : B → Prop) `{!∀ x, Decision (P x)} (l : list A) :
  filter P (f <$> l) = f <$> filter (λ x, P (f x)) l.
Proof.
  induction l as [|x l IH]; csimpl; [done|].
  rewrite !filter_cons, IH. by destruct (decide (P (f x))).
Qed.

Lemma filter_False {A} (P : A → Prop) `{!∀ x, Decision (P x)} (l : list A) :
  (∀ x, x ∈ l → ¬ P x) → filter P l = [].
Proof.
  intros Hl. induction l as [|x l IH]; [done|].
  rewrite filter_cons, decide_False by (apply Hl; left).
  apply IH. intros y Hy. apply Hl. by right.
Qed.

Lemma normalize_strip_lower x : normalize x = strip (lower x).
Proof.
  unfold normalize. rewrite decide_False; [done|]. apply strip_ne_variant.
Qed.

Lemma lookup_entry k v d k' :
  db.entry k v d !! k' = if decide (k = k') then from_option Some (d !! k') v else d !! k'.
Proof.
  unfold db.entry. destruct v as [c|]; destruct (decide (k = k')) as [->|]; simpl.
  - by rewrite lookup_insert_eq.
  - by rewrite lookup_insert_ne.
  - done.
  - done.
Qed.

Lemma preference_dict_user p :
  db.preference_dict p !! "user" = Oid <$> db.pref_user p.
Proof.
  unfold db.preference_dict. rewrite !lookup_entry; simpl.
  by destruct (db.pref_user p).
Qed.

Lemma preference_dict_label p :
  db.preference_dict p !! "typeRessource" = Str <$> db.pref_typeRessource p.
Proof.
  unfold db.preference_dict. rewrite !lookup_entry; simpl.
  by destruct (db.pref_typeRessource p).
Qed.

Lemma at_preference_row_user p : at_ (preference_row p) "user" = Str (user_str p).
Proof.
  unfold preference_row, user_str, at_. rewrite lookup_insert_eq; simpl.
  by rewrite !lookup_insert_ne by done.
Qed.

Lemma at_preference_row_label p :
  at_ (preference_row p) "typeRessource" = preference_label p.
Proof.
  unfold preference_row, preference_label, at_.
  rewrite lookup_insert_ne by done. rewrite !lookup_insert_eq; simpl.
  rewrite preference_dict_label.
  destruct (db.pref_typeRessource p) as [t|]; simpl; [|done].
  unfold normalize.
  destruct (decide (strip (lower t) = _)) as [E|E].
  - by rewrite decide_True by (by rewrite E).
  - by rewrite decide_False by congruence.
Qed.

(** The user column of a stored preference, seen from the document. *)
Lemma user_str_alt p : user_str p = default "nan" (db.pref_user p).
Proof.
  unfold user_str, at_. rewrite preference_dict_user.
  by destruct (db.pref_user p).
Qed.

Lemma course_dict_label c :
  db.course_dict c !! "typeRessource" = db.field_cell (db.course_typeRessource c).
Proof.
  unfold db.course_dict. rewrite !lookup_entry; simpl.
  by destruct (db.field_cell _).
Qed.

Lemma course_dict_title c : db.course_dict c !! "title" = Str <$> db.course_title c.
Proof.
  unfold db.course_dict. rewrite !lookup_entry; simpl. by destruct (db.course_title c).
Qed.

Lemma course_dict_level c : db.course_dict c !! "level" = Str <$> db.course_level c.
Proof.
  unfold db.course_dict. rewrite !lookup_entry; simpl. by destruct (db.course_level c).
Qed.

Lemma course_dict_price c : db.course_dict c !! "price" = Num <$> db.course_price c.
Proof.
  unfold db.course_dict. rewrite !lookup_entry; simpl. by destruct (db.course_price c).
Qed.

Lemma at_course_row_label c :
  at_ (course_row c) "typeRessource"
  = normalize_course_cell (default NaN (db.field_cell (db.course_typeRessource c))).
Proof.
  unfold course_row, normalize_course_cell, at_.
  rewrite lookup_insert_ne by done. rewrite !lookup_insert_eq; simpl.
  by rewrite course_dict_label.
Qed.

Lemma at_course_row_id c : at_ (course_row c) "_id" = Str (db.course_id c).
Proof.
  unfold course_row, at_. rewrite lookup_insert_eq; simpl.
  rewrite !lookup_insert_ne by done. by rewrite course_dict_id.
Qed.

Lemma at_course_row_title c : at_ (course_row c) "title" = opt_cell Str (db.course_title c).
Proof.
  unfold course_row, at_. rewrite !lookup_insert_ne by done.
  rewrite course_dict_title. by destruct (db.course_title c).
Qed.

Lemma at_course_row_level c : at_ (course_row c) "level" = opt_cell Str (db.course_level c).
Proof.
  unfold course_row, at_. rewrite !lookup_insert_ne by done.
  rewrite course_dict_level. by destruct (db.course_level c).
Qed.

Lemma at_course_row_price c : at_ (course_row c) "price" = opt_cell Num (db.course_price c).
Proof.
  unfold course_row, at_. rewrite !lookup_insert_ne by done.
  rewrite course_dict_price. by destruct (db.course_price c).
Qed.

(** The dictionary [to_dict] builds from a loaded row is the course's
    record. *)
Lemma record_course_row c : record returned_columns (course_row c) = course_record c.
Proof.
  unfold record, returned_columns, course_record. csimpl.
  by rewrite at_course_row_id, at_course_row_title, at_course_row_label,
    at_course_row_level, at_course_row_price.
Qed.

Lemma at_course_record_label c :
  at_ (course_record c) "typeRessource" = at_ (course_row c) "typeRessource".
Proof.
  rewrite <-record_course_row. apply at_record. unfold returned_columns.
  set_solver.
Qed.

(** The label of a loaded course is a string, and normalising it again
    changes nothing. *)
Lemma course_label_normalized c :
  ∃ x, at_ (course_row c) "typeRessource" = Str x ∧ strip (lower x) = x.
Proof.
  rewrite at_course_row_label. unfold normalize_course_cell.
  destruct (db.course_typeRessource c) as [| |x]; simpl.
  - by exists "other".
  - by exists "other".
  - exists (strip (lower x)). split; [done|].
    by rewrite <-strip_lower, lower_idem, strip_idem.
Qed.

End rows.

(** ** The functions of [main.py] on loaded frames *)

Section functions.

Import main.

Lemma if_nil_id {A} `{!EqDecision A} (l : list A) :
  (if bool_decide (l = []) then [] else l) = l.
Proof. by destruct l. Qed.

Lemma get_user_preferences_loaded d u :
  loadable d →
  get_user_preferences u (prefs_frame d) = preference_label <$> stored_preferences d u.
Proof.
  intros (_ & Hp & Hu). unfold get_user_preferences.
  rewrite (getitem_Return (prefs_frame d) "user") by exact Hu.
  cbn [mbind result_bind].
  rewrite (getitem_Return (loc (prefs_frame d) _) "typeRessource") by exact Hp.
  cbn [mbind result_bind mret result_ret]. unfold tolist.
  rewrite if_nil_id, loc_eq. cbn [rows prefs_frame].
  rewrite filter_fmap, <-list_fmap_compose. unfold stored_preferences.
  rewrite (list_filter_iff _ (λ p, user_str p = u)).
  - apply list_fmap_ext. intros _ p _. simpl. apply at_preference_row_label.
  - intros p. rewrite at_preference_row_user. split; congruence.
Qed.

Lemma filter_matches_rows prefs (cs : list db.Course) :
  record returned_columns <$> filter (λ r, at_ r "typeRessource" ∈ prefs) (course_row <$> cs)
  = filter (matches prefs) (course_record <$> cs).
Proof.
  rewrite !filter_fmap, <-list_fmap_compose.
  rewrite (list_filter_iff _ (λ c, matches prefs (course_record c))).
  - apply list_fmap_ext. intros _ c _. simpl. apply record_course_row.
  - intros c. unfold matches. by rewrite at_course_record_label.
Qed.

(** What [recommend_courses] returns on loaded frames, when it returns. *)
Lemma recommend_courses_loaded d u n recs :
  loadable d → 0 ≤ n →
  recommend_courses u (prefs_frame d) (courses_frame d) n = Return recs →
  recs = take (Z.to_nat n)
           (filter (matches (get_user_preferences u (prefs_frame d))) (catalog d)).
Proof.
  intros Hl Hn. pose proof Hl as (Hc & _ & _).
  unfold recommend_courses. cbv zeta.
  set (prefs := get_user_preferences u (prefs_frame d)).
  destruct (bool_decide (prefs = [])) eqn:Hprefs.
  - apply bool_decide_eq_true in Hprefs. rewrite Hprefs. intros [= <-].
    rewrite (filter_False (matches [])); [by rewrite take_nil|].
    intros r _. unfold matches. set_solver.
  - rewrite (getitem_Return (courses_frame d) "typeRessource") by exact Hc.
    cbn [mbind result_bind]. unfold empty. rewrite loc_isin.
    cbn [rows columns courses_frame loc].
    pose proof (filter_matches_rows prefs (db.courses d)) as Hm.
    fold (catalog d) in Hm.
    destruct (bool_decide (filter _ (course_row <$> db.courses d) = [])) eqn:He.
    + apply bool_decide_eq_true in He. rewrite He in Hm. rewrite <-Hm.
      simpl. intros [= <-]. by rewrite take_nil.
    + cbn [orb]. destruct (bool_decide (columns (raw_courses d) = [])) eqn:Hcols.
      { apply bool_decide_eq_true in Hcols. rewrite Hcols in Hc. set_solver. }
      unfold getitems. cbn [columns]. fold returned_columns.
      match goal with
      | |- context [filter ?P returned_columns] =>
          destruct (filter P returned_columns) as [|m ms]; [|done]
      end.
      cbn [mbind result_bind mret result_ret try_except].
      intros [= <-]. unfold to_dict_records, head. cbn [rows columns].
      rewrite (proj2 (Z.leb_le 0 n) Hn).
      rewrite select_isin. cbn [rows courses_frame]. rewrite <-Hm.
      by rewrite fmap_take.
Qed.

Lemma top_n_check n : (n <? 1) || (n >? 50) = false ↔ 1 ≤ n ≤ 50.
Proof. rewrite orb_false_iff, Z.ltb_ge, Z.gtb_ltb, Z.ltb_ge. lia. Qed.

(** An out-of-range [top_n] raises the 400 inside the [try], and the
    handler turns it into a 500. *)
Lemma get_recommendations_invalid d u n :
  n < 1 ∨ 50 < n →
  get_recommendations d u n
  = Raise (HTTPException 500 (Fstr "Error processing recommendations: "
      (HTTPException 400 (Text "top_n must be between 1 and 50")))).
Proof.
  intros Hn. unfold get_recommendations.
  destruct ((n <? 1) || (n >? 50)) eqn:E; [done|].
  apply top_n_check in E. lia.
Qed.

(** A load that fails gives a 500. *)
Lemma get_recommendations_unloadable d u n :
  ¬ loadable d → ∃ e, get_recommendations d u n = Raise (HTTPException 500 e).
Proof.
  intros Hl. unfold get_recommendations.
  destruct ((n <? 1) || (n >? 50)); [by eexists|].
  destruct (load_data_Raise d Hl) as [k ->]. by eexists.
Qed.

(** What the endpoint returns, when it returns. *)
Lemma get_recommendations_inv d u n resp :
  get_recommendations d u n = Return resp →
  1 ≤ n ≤ 50 ∧ loadable d ∧
  resp = {| user_id := u;
            preferences := preference_label <$> stored_preferences d u;
            recommendations :=
              take (Z.to_nat n)
                (filter (matches (preference_label <$> stored_preferences d u))
                   (catalog d)) |}.
Proof.
  unfold get_recommendations.
  destruct ((n <? 1) || (n >? 50)) eqn:E; [done|]. apply top_n_check in E.
  destruct (load_data d) as [[pf cf]|e] eqn:Hload; [|done].
  apply load_data_inv in Hload as (Hl & -> & ->).
  cbn [mbind result_bind].
  destruct (recommend_courses u (prefs_frame d) (courses_frame d) n)
    as [recs|e] eqn:Hrec; [|done].
  apply recommend_courses_loaded in Hrec; [|done|lia].
  cbn [mbind result_bind mret result_ret try_except]. intros [= <-].
  rewrite get_user_preferences_loaded in * by done. by subst recs.
Qed.


End functions.

(** ** Properties of the service *)

Section lists.

Context {A : Type} (P : A → Prop) `{!∀ x, Decision (P x)}.

Lemma filter_lookup_rank (l : list A) i a :
  l !! i = Some a → P a → filter P l !! length (filter P (take i l)) = Some a.
Proof.
  intros Hi Ha.
  replace (filter P l) with (filter P (take i l ++ a :: drop (S i) l))
    by (by rewrite take_drop_middle).
  rewrite filter_app, filter_cons, decide_True by done.
  rewrite lookup_app_r by done. by rewrite Nat.sub_diag.
Qed.

Lemma filter_take_lt (l : list A) i j a :
  (i < j)%nat → l !! i = Some a → P a →
  (length (filter P (take i l)) < length (filter P (take j l)))%nat.
Proof.
  intros Hij Hi Ha.
  rewrite <-(take_drop (S i) (take j l)), take_take, Nat.min_l by lia.
  rewrite (take_S_r l i a Hi), !filter_app, !length_app.
  rewrite filter_cons, decide_True by done. simpl. lia.
Qed.

End lists.

Section claims.

Import main.

(** C1.  A [top_n] outside [1, 50] does not surface with status 400.  The
    [HTTPException] with status 400 is raised inside the [try] block, the
    [except Exception] handler of [get_recommendations] catches it and
    raises a new one with status 500: at [top_n = 0] and at [top_n = 51] the
    response has status 500, whatever the store and the user.  The bounds 1
    and 50 pass the check. *)
Theorem out_of_range_top_n_status_500 d u :
  get_recommendations d u 0
  = Raise (HTTPException 500 (Fstr "Error processing recommendations: "
      (HTTPException 400 (Text "top_n must be between 1 and 50"))))
  ∧ status (get_recommendations d u 0) = 500
  ∧ status (get_recommendations d u 51) = 500
  ∧ status (get_recommendations sample_db "u1" 1) = 200
  ∧ status (get_recommendations sample_db "u1" 50) = 200.
Proof.
  rewrite !get_recommendations_invalid by lia.
  repeat split; vm_compute; reflexivity.
Qed.

(** C2.  When the request succeeds, at most [top_n] courses are returned,
    and the label of every returned course is a string in normal form that
    belongs to the returned list of preferences. *)
Theorem recommendations_bounded_and_preferred d u n resp :
  get_recommendations d u n = Return resp →
  Z.of_nat (length (recommendations resp)) ≤ n
  ∧ ∀ r, r ∈ recommendations resp →
      ∃ x, r !! "typeRessource" = Some (Str x)
           ∧ normalize x = x
           ∧ Str (normalize x) ∈ preferences resp.
Proof.
  intros (Hn & _ & ->)%get_recommendations_inv. cbn [recommendations preferences].
  split.
  - rewrite length_take. lia.
  - intros r Hr. apply subseteq_take in Hr.
    apply list_elem_of_filter in Hr as [Hm Hr].
    apply list_elem_of_fmap in Hr as (c & -> & _).
    destruct (course_label_normalized c) as (x & Hx & Hnorm).
    unfold matches in Hm. rewrite at_course_record_label, Hx in Hm.
    exists x. rewrite normalize_strip_lower, Hnorm. split; [|done].
    rewrite <-at_course_record_label in Hx. unfold at_ in Hx.
    destruct (course_record c !! "typeRessource") as [v|]; simpl in Hx; by subst.
Qed.

Lemma recommendations_bounded_and_preferred_witness :
  get_recommendations sample_db "u1" 10 = Return sample_response
  ∧ Z.of_nat (length (recommendations sample_response)) ≤ 10
  ∧ ∀ r, r ∈ recommendations sample_response →
      ∃ x, r !! "typeRessource" = Some (Str x)
           ∧ normalize x = x
           ∧ Str (normalize x) ∈ preferences sample_response.
Proof.
  split; [vm_compute; reflexivity|].
  apply (recommendations_bounded_and_preferred sample_db "u1" 10).
  vm_compute; reflexivity.
Defined.




(** C4.  The recommendations are the first [top_n] matching courses in
    catalog order: a subsequence of the catalog, in which two matching
    courses that are both returned keep the order they have in the
    catalog. *)
Theorem recommendations_in_catalog_order d u n resp :
  get_recommendations d u n = Return resp →
  recommendations resp
  = take (Z.to_nat n) (filter (matches (preferences resp)) (catalog d))
  ∧ recommendations resp `sublist_of` catalog d
  ∧ ∀ i j a b,
      (i < j)%nat →
      catalog d !! i = Some a → catalog d !! j = Some b →
      matches (preferences resp) a → matches (preferences resp) b →
      (rank (preferences resp) (catalog d) j < Z.to_nat n)%nat →
      (rank (preferences resp) (catalog d) i < rank (preferences resp) (catalog d) j)%nat
      ∧ recommendations resp !! rank (preferences resp) (catalog d) i = Some a
      ∧ recommendations resp !! rank (preferences resp) (catalog d) j = Some b.
Proof.
  intros (Hn & _ & ->)%get_recommendations_inv. cbn [recommendations preferences].
  set (prefs := preference_label <$> stored_preferences d u).
  split; [done|]. split.
  - etrans; [apply sublist_take|apply sublist_filter].
  - intros i j a b Hij Hi Hj Ha Hb Hrank. unfold rank in *.
    pose proof (filter_take_lt (matches prefs) (catalog d) i j a Hij Hi Ha) as Hlt.
    split; [done|].
    rewrite !lookup_take_lt by lia.
    split; by apply filter_lookup_rank.
Qed.

Lemma recommendations_in_catalog_order_witness :
  get_recommendations sample_db "u1" 10 = Return sample_response
  ∧ recommendations sample_response
    = take (Z.to_nat 10)
        (filter (matches (preferences sample_response)) (catalog sample_db))
  ∧ recommendations sample_response `sublist_of` catalog sample_db
  ∧ ∀ i j a b,
      (i < j)%nat →
      catalog sample_db !! i = Some a → catalog sample_db !! j = Some b →
      matches (preferences sample_response) a →
      matches (preferences sample_response) b →
      (rank (preferences sample_response) (catalog sample_db) j < Z.to_nat 10)%nat →
      (rank (preferences sample_response) (catalog sample_db) i
       < rank (preferences sample_response) (catalog sample_db) j)%nat
      ∧ recommendations sample_response
          !! rank (preferences sample_response) (catalog sample_db) i = Some a
      ∧ recommendations sample_response
          !! rank (preferences sample_response) (catalog sample_db) j = Some b.
Proof.
  split; [vm_compute; reflexivity|].
  apply (recommendations_in_catalog_order sample_db "u1" 10 sample_response).
  vm_compute; reflexivity.
Defined.

(** C5.  Normalisation is a total function and is idempotent: on a label
    (lower case, strip, variant replacement), on a whole column, and on the
    label of a course (fill with [other], lower case, strip). *)
Theorem normalize_idempotent :
  (∀ x : string, normalize (normalize x) = normalize x)
  ∧ (∀ s : Series, normalize_series (normalize_series s) = normalize_series s)
  ∧ (∀ f : db.field,
       let c := normalize_course_cell (default NaN (db.field_cell f)) in
       normalize_course_cell c = c).
Proof.
  assert (Hx : ∀ x, strip (lower (strip (lower x))) = strip (lower x)).
  { intros x. by rewrite <-strip_lower, lower_idem, strip_idem. }
  split; [|split].
  - intros x. by rewrite !normalize_strip_lower.
  - intros s. unfold normalize_series, replace, str_strip, str_lower.
    rewrite <-!list_fmap_compose. apply list_fmap_ext. intros _ c _. simpl.
    destruct c as [| |x| |]; simpl; try done.
    rewrite (decide_False (P := Str (strip (lower x)) = _)).
    2:{ intros [= E]. by apply strip_ne_variant in E. }
    simpl. rewrite Hx.
    rewrite decide_False; [done|]. intros [= E]. by apply strip_ne_variant in E.
  - intros [| |x]; simpl; [done|done|].
    unfold normalize_course_cell; simpl. by rewrite Hx.
Qed.

(** C6.  A course without a [typeRessource] entry is not read as [other]
    when no course of the catalog has the entry.  The frame then has no
    [typeRessource] column, line 64 of [load_data] raises a [KeyError]
    before [fillna] can run, and the response has status 500 for every
    user and every [top_n]; a user who likes [other] gets no course.  With
    a null entry the column exists and the course is returned. *)
Theorem unlabelled_catalog_status_500 us ps cs u n :
  status (get_recommendations (db.mk us ps (without_label <$> cs)) u n) = 500
  ∧ get_recommendations unlabelled_db "u1" 10
    = Raise (HTTPException 500 (Fstr "Error processing recommendations: "
        (HTTPException 500 (Fstr "Error loading data: " (KeyError ["typeRessource"])))))
  ∧ get_recommendations null_label_db "u1" 10
    = Return {| user_id := "u1"; preferences := [Str "other"];
                recommendations :=
                  [course_record (db.mkCourse "c1" (Some "Misc") db.Null
                                    (Some "hard") (Some 3))] |}.
Proof.
  split; [|split; vm_compute; reflexivity].
  destruct (get_recommendations_unloadable
              (db.mk us ps (without_label <$> cs)) u n) as [e ->]; [|done].
  intros (Hc & _). unfold raw_courses in Hc. cbn [db.courses] in Hc.
  apply elem_of_columns_from_records in Hc as (r & Hr & Hsome).
  apply list_elem_of_fmap in Hr as (c' & -> & Hc').
  apply list_elem_of_fmap in Hc' as (c & -> & _).
  rewrite course_dict_label in Hsome. by destruct Hsome.
Qed.

(** C7.  An unknown user is answered with an error when a collection is
    empty.  Over an empty [preferences] collection every user is unknown,
    and the response has status 500 for every user and every [top_n]; over
    an empty catalog the user [ghost], whom no preference names, gets the
    500 of the [KeyError] that [load_data] raises. *)
Theorem unknown_user_status_500 us cs u n :
  stored_preferences (db.mk us [] cs) u = []
  ∧ status (get_recommendations (db.mk us [] cs) u n) = 500
  ∧ stored_preferences empty_catalog_db "ghost" = []
  ∧ get_recommendations empty_catalog_db "ghost" 10
    = Raise (HTTPException 500 (Fstr "Error processing recommendations: "
        (HTTPException 500 (Fstr "Error loading data: " (KeyError ["typeRessource"])))))
  ∧ status (get_recommendations empty_catalog_db "ghost" 10) = 500.
Proof.
  split; [done|]. split; [|repeat split; vm_compute; reflexivity].
  destruct (get_recommendations_unloadable (db.mk us [] cs) u n) as [e ->]; [|done].
  intros (_ & Hp & _). unfold raw_prefs in Hp. simpl in Hp. set_solver.
Qed.


(** C9.  An empty collection is a failure.  When the [preferences]
    collection or the [courses] collection holds no document, the frame
    built from it has no column, [load_data] raises a [KeyError] and the
    response has status 500, for every user and every [top_n]. *)
Theorem empty_collection_status_500 us ps cs u n :
  status (get_recommendations (db.mk us [] cs) u n) = 500
  ∧ status (get_recommendations (db.mk us ps []) u n) = 500
  ∧ get_recommendations (db.mk [] [] sample_courses) "u1" 10
    = Raise (HTTPException 500 (Fstr "Error processing recommendations: "
        (HTTPException 500 (Fstr "Error loading data: " (KeyError ["typeRessource"]))))).
Proof.
  split; [|split; [|vm_compute; reflexivity]].
  - destruct (get_recommendations_unloadable (db.mk us [] cs) u n) as [e ->]; [|done].
    intros (_ & Hp & _). unfold raw_prefs in Hp. simpl in Hp. set_solver.
  - destruct (get_recommendations_unloadable (db.mk us ps []) u n) as [e ->]; [|done].
    intros (Hc & _). unfold raw_courses in Hc. simpl in Hc. set_solver.
Qed.

(** C10.  The replacement of [" interactive exercice"] never fires: after
    [strip] no label starts with a space, so the three steps equal lower
    case followed by strip, on a label, on a column and on the row that
    [load_data] builds. *)
Theorem replace_step_unreachable :
  (∀ x : string, normalize x = strip (lower x))
  ∧ (∀ s : Series, normalize_series s = lower_then_strip s)
  ∧ (∀ p : db.Preference,
       at_ (preference_row p) "typeRessource"
       = str_map strip (str_map lower (at_ (db.preference_dict p) "typeRessource"))).
Proof.
  split; [|split].
  - apply normalize_strip_lower.
  - intros s. unfold normalize_series, lower_then_strip, replace, str_strip, str_lower.
    rewrite <-!list_fmap_compose. apply list_fmap_ext. intros _ c _. simpl.
    rewrite decide_False; [done|].
    destruct c as [| |x| |]; simpl; try done.
    intros [= E]. by apply strip_ne_variant in E.
  - intros p. rewrite at_preference_row_label. unfold preference_label, at_.
    rewrite preference_dict_label.
    destruct (db.pref_typeRessource p) as [x|]; simpl; [|done].
    by rewrite normalize_strip_lower.
Qed.

End claims.

(** ** Further properties of [main.py] *)

Import main.

Lemma first_rows_fmap {A B} (f : A → B) (l : list A) n :
  f <$> first_rows l n = first_rows (f <$> l) n.
Proof.
  unfold first_rows. rewrite length_fmap.
  destruct (0 <=? n); by rewrite fmap_take.
Qed.

Lemma found_courses_rows d u :
  record returned_columns
    <$> filter (λ r, at_ r "typeRessource" ∈ user_labels d u) (course_row <$> db.courses d)
  = found_courses d u.
Proof. apply filter_matches_rows. Qed.

(** [recommend_courses] on the loaded frames, in every case. *)
Lemma recommend_courses_on_frames d u n :
  loadable d →
  recommend_courses u (prefs_frame d) (courses_frame d) n
  = match found_courses d u, missing_columns d with
    | [], _ => Return []
    | _ :: _, [] => Return (first_rows (found_courses d u) n)
    | _ :: _, m => Raise (HTTPException 500 (Fstr "Error recommending courses: " (KeyError m)))
    end.
Proof.
  intros Hl. pose proof Hl as (Hc & _ & _).
  unfold recommend_courses. cbv zeta.
  rewrite (get_user_preferences_loaded d u Hl). fold (user_labels d u).
  pose proof (found_courses_rows d u) as Hm.
  destruct (bool_decide (user_labels d u = [])) eqn:Hprefs.
  - apply bool_decide_eq_true in Hprefs.
    replace (found_courses d u) with (@nil (gmap string cell)); [done|].
    symmetry. unfold found_courses. rewrite Hprefs.
    apply filter_False. intros r _. unfold matches. set_solver.
  - rewrite (getitem_Return (courses_frame d) "typeRessource") by exact Hc.
    cbn [mbind result_bind]. unfold empty. rewrite loc_isin.
    cbn [rows columns courses_frame loc].
    destruct (bool_decide (filter _ (course_row <$> db.courses d) = [])) eqn:He.
    + apply bool_decide_eq_true in He. rewrite He in Hm.
      by rewrite <-Hm.
    + apply bool_decide_eq_false in He.
      cbn [orb]. destruct (bool_decide (columns (raw_courses d) = [])) eqn:Hcols.
      { apply bool_decide_eq_true in Hcols. rewrite Hcols in Hc. set_solver. }
      unfold getitems. cbn [columns]. fold returned_columns.
      match goal with
      | |- context [filter ?P returned_columns] =>
          change (filter P returned_columns) with (missing_columns d)
      end.
      assert (Hrec : to_dict_records
                (head {| columns := returned_columns;
                         rows := rows (loc (courses_frame d)
                                   (isin ((λ r, at_ r "typeRessource")
                                            <$> rows (courses_frame d))
                                      (user_labels d u))) |} n)
              = first_rows (found_courses d u) n).
      { unfold to_dict_records, head. cbn [rows columns].
        rewrite loc_isin. cbn [rows courses_frame].
        rewrite <-Hm, <-first_rows_fmap. done. }
      destruct (found_courses d u) as [|r0 found] eqn:Hf.
      { destruct (filter _ (course_row <$> db.courses d)); [done|discriminate Hm]. }
      destruct (missing_columns d) as [|m ms]; [|done].
      cbn [mbind result_bind mret result_ret try_except]. f_equal. exact Hrec.
Qed.


Lemma loadable_store d : loadable d ↔ store_loadable d.
Proof.
  unfold loadable, store_loadable, raw_courses, raw_prefs.
  rewrite !elem_of_columns_from_records.
  assert (Hc : (∃ r, r ∈ db.course_dict <$> db.courses d ∧ is_Some (r !! "typeRessource"))
               ↔ ∃ c, c ∈ db.courses d ∧ db.course_typeRessource c ≠ db.Absent).
  { split.
    - intros (r & (c & -> & Hin)%list_elem_of_fmap & Hr). exists c. split; [done|].
      rewrite course_dict_label in Hr. intros E. rewrite E in Hr. by destruct Hr.
    - intros (c & Hin & Hne). exists (db.course_dict c).
      split; [by apply list_elem_of_fmap_2|]. rewrite course_dict_label.
      by destruct (db.course_typeRessource c). }
  assert (Hp : (∃ r, r ∈ db.preference_dict <$> db.preferences d ∧ is_Some (r !! "typeRessource"))
               ↔ ∃ p, p ∈ db.preferences d ∧ is_Some (db.pref_typeRessource p)).
  { split.
    - intros (r & (p & -> & Hin)%list_elem_of_fmap & Hr). exists p. split; [done|].
      rewrite preference_dict_label in Hr. by apply fmap_is_Some in Hr.
    - intros (p & Hin & Hs). exists (db.preference_dict p).
      split; [by apply list_elem_of_fmap_2|]. rewrite preference_dict_label.
      by apply fmap_is_Some. }
  assert (Hu : (∃ r, r ∈ db.preference_dict <$> db.preferences d ∧ is_Some (r !! "user"))
               ↔ ∃ p, p ∈ db.preferences d ∧ is_Some (db.pref_user p)).
  { split.
    - intros (r & (p & -> & Hin)%list_elem_of_fmap & Hr). exists p. split; [done|].
      rewrite preference_dict_user in Hr. by apply fmap_is_Some in Hr.
    - intros (p & Hin & Hs). exists (db.preference_dict p).
      split; [by apply list_elem_of_fmap_2|]. rewrite preference_dict_user.
      by apply fmap_is_Some. }
  by rewrite Hc, Hp, Hu.
Qed.

Lemma load_data_Raise_key d :
  ¬ loadable d →
  ∃ k, (k = "typeRessource" ∨ k = "user")
       ∧ load_data d
         = Raise (HTTPException 500 (Fstr "Error loading data: " (KeyError [k]))).
Proof.
  intros Hl. destruct (load_data_Raise d Hl) as [k Hk].
  exists k. split; [|done].
  destruct (decide ("typeRessource" ∈ columns (raw_courses d))) as [Hc|Hc].
  2:{ left. revert Hk. unfold load_data. fold (raw_prefs d) (raw_courses d). cbv zeta.
      rewrite (getitem_Raise (raw_courses d) "typeRessource") by exact Hc.
      by intros [= ->]. }
  destruct (decide ("typeRessource" ∈ columns (raw_prefs d))) as [Hp|Hp];
    [right|left]; revert Hk;
    pose proof (raw_courses_id d Hc) as Hi;
    unfold load_data; fold (raw_prefs d) (raw_courses d); cbv zeta;
    rewrite (getitem_Return (raw_courses d) "typeRessource") by exact Hc;
    cbn [mbind result_bind]; rewrite setitem_fillna by exact Hc;
    rewrite (getitem_Return (update_column (raw_courses d) _ _) "typeRessource") by exact Hc;
    cbn [mbind result_bind]; rewrite setitem_strip_lower by exact Hc;
    rewrite (getitem_Return _ "_id") by exact Hi;
    cbn [mbind result_bind]; rewrite setitem_astype_str by exact Hi.
  - rewrite (getitem_Return (raw_prefs d) "typeRessource") by exact Hp.
    cbn [mbind result_bind]. rewrite setitem_strip_lower by exact Hp.
    rewrite (getitem_Return (update_column (raw_prefs d) _ _) "typeRessource") by exact Hp.
    cbn [mbind result_bind]. rewrite setitem_replace by exact Hp.
    destruct (decide ("user" ∈ columns (raw_prefs d))) as [Hu|Hu].
    { destruct Hl. by repeat split. }
    rewrite (getitem_Raise _ "user") by exact Hu. by intros [= ->].
  - rewrite (getitem_Raise (raw_prefs d) "typeRessource") by exact Hp.
    by intros [= ->].
Qed.

(** X1.  [load_data] returns the two frames exactly when some course has a
    [typeRessource] entry, some preference has a label and some preference
    has a user; otherwise it raises an [HTTPException] with status 500
    whose detail carries the [KeyError] of the column [typeRessource] or
    [user] that is missing. *)
Theorem load_data_outcome d :
  (store_loadable d ∧ load_data d = Return (prefs_frame d, courses_frame d))
  ∨ (¬ store_loadable d
     ∧ ∃ k, (k = "typeRessource" ∨ k = "user")
            ∧ load_data d
              = Raise (HTTPException 500 (Fstr "Error loading data: " (KeyError [k])))).
Proof.
  destruct (decide (loadable d)) as [Hl|Hl].
  - left. split; [by apply loadable_store|by apply load_data_Return].
  - right. split; [by rewrite <-loadable_store|by apply load_data_Raise_key].
Qed.

(** X3.  [get_user_preferences] never raises.  On a frame with the columns
    [user] and [typeRessource] it returns the labels of the rows of that
    user, in row order and with repetitions; on a frame that lacks one of
    the two columns it returns the empty list. *)
Theorem get_user_preferences_any_frame u df :
  get_user_preferences u df
  = if decide ("user" ∈ columns df ∧ "typeRessource" ∈ columns df)
    then (λ r, at_ r "typeRessource") <$> filter (λ r, at_ r "user" = Str u) (rows df)
    else [].
Proof.
  unfold get_user_preferences.
  destruct (decide ("user" ∈ columns df)) as [Hu|Hu].
  2:{ rewrite (getitem_Raise df "user") by exact Hu.
      rewrite decide_False by (by intros [? _]). done. }
  rewrite (getitem_Return df "user") by exact Hu. cbn [mbind result_bind].
  destruct (decide ("typeRessource" ∈ columns df)) as [Hp|Hp].
  - rewrite (getitem_Return (loc df _) "typeRessource") by exact Hp.
    cbn [mbind result_bind mret result_ret]. unfold tolist.
    rewrite if_nil_id, loc_eq. by rewrite decide_True.
  - rewrite (getitem_Raise (loc df _) "typeRessource") by exact Hp.
    rewrite decide_False by (by intros [_ ?]). done.
Qed.

Lemma preference_label_alt p :
  preference_label p
  = from_option (λ x, Str (strip (lower x))) NaN (db.pref_typeRessource p).
Proof.
  unfold preference_label. destruct (db.pref_typeRessource p); simpl; [|done].
  by rewrite normalize_strip_lower.
Qed.

Lemma user_labels_alt d u :
  user_labels d u
  = (λ p, from_option (λ x, Str (strip (lower x))) NaN (db.pref_typeRessource p))
      <$> filter (λ p, default "nan" (db.pref_user p) = u) (db.preferences d).
Proof.
  unfold user_labels, stored_preferences.
  rewrite (list_filter_iff _ (λ p, default "nan" (db.pref_user p) = u)).
  - apply list_fmap_ext. intros _ p _. apply preference_label_alt.
  - intros p. by rewrite user_str_alt.
Qed.

(** X4.  A returned response echoes the user id, and its preferences are
    the labels of the preference documents of that user (a document
    without a user counts for ["nan"]) in collection order, each in lower
    case and stripped, repetitions kept, [NaN] for a document without a
    label. *)
Theorem response_echo d u n r :
  get_recommendations d u n = Return r →
  user_id r = u
  ∧ preferences r
    = (λ p, from_option (λ x, Str (strip (lower x))) NaN (db.pref_typeRessource p))
        <$> filter (λ p, default "nan" (db.pref_user p) = u) (db.preferences d).
Proof.
  intros (_ & _ & ->)%get_recommendations_inv. cbn [user_id preferences].
  split; [done|]. apply user_labels_alt.
Qed.

Lemma response_echo_witness :
  get_recommendations mixed_db "u1" 10
  = Return {| user_id := "u1"; preferences := [Str "video"; Str "video"];
              recommendations := recommendations sample_response |}
  ∧ preferences {| user_id := "u1"; preferences := [Str "video"; Str "video"];
                   recommendations := recommendations sample_response |}
    = (λ p, from_option (λ x, Str (strip (lower x))) NaN (db.pref_typeRessource p))
        <$> filter (λ p, default "nan" (db.pref_user p) = "u1") (db.preferences mixed_db).
Proof.
  split; [vm_compute; reflexivity|].
  apply (response_echo mixed_db "u1" 10). vm_compute; reflexivity.
Defined.

(** X5.  [recommend_courses] on a loaded snapshot, for any integer bound:
    without a matching course it returns the empty list; with one, it
    returns the head of the matches, unless no course of the catalog has
    one of the returned columns, in which case it raises an
    [HTTPException] with status 500 over the [KeyError] of those columns. *)
Theorem recommend_courses_on_snapshot d u n pf cf :
  load_data d = Return (pf, cf) →
  recommend_courses u pf cf n
  = match found_courses d u, missing_columns d with
    | [], _ => Return []
    | _ :: _, [] => Return (first_rows (found_courses d u) n)
    | _ :: _, m => Raise (HTTPException 500 (Fstr "Error recommending courses: " (KeyError m)))
    end.
Proof.
  intros (Hl & -> & ->)%load_data_inv. by apply recommend_courses_on_frames.
Qed.

Lemma recommend_courses_on_snapshot_witness :
  recommend_courses "u1" (prefs_frame priceless_db) (courses_frame priceless_db) 10
  = Raise (HTTPException 500 (Fstr "Error recommending courses: " (KeyError ["price"]))).
Proof.
  etrans; [apply (recommend_courses_on_snapshot priceless_db "u1" 10);
           vm_compute; reflexivity|].
  vm_compute; reflexivity.
Defined.

Lemma get_recommendations_on_frames d u n :
  1 ≤ n ≤ 50 → loadable d →
  get_recommendations d u n
  = match found_courses d u, missing_columns d with
    | [], _ =>
        Return {| user_id := u; preferences := user_labels d u; recommendations := [] |}
    | _ :: _, [] =>
        Return {| user_id := u; preferences := user_labels d u;
                  recommendations := take (Z.to_nat n) (found_courses d u) |}
    | _ :: _, m =>
        Raise (HTTPException 500 (Fstr "Error processing recommendations: "
          (HTTPException 500 (Fstr "Error recommending courses: " (KeyError m)))))
    end.
Proof.
  intros Hn Hl. unfold get_recommendations.
  rewrite (proj2 (top_n_check n) Hn), (load_data_Return d Hl).
  cbn [mbind result_bind]. rewrite (recommend_courses_on_frames d u n Hl).
  rewrite (get_user_preferences_loaded d u Hl). fold (user_labels d u).
  destruct (found_courses d u) as [|r0 found]; [done|].
  destruct (missing_columns d); [|done].
  unfold first_rows. rewrite (proj2 (Z.leb_le 0 n)) by lia. done.
Qed.

(** X6.  What the function [get_recommendations] does for a [top_n] in
    range on a loaded snapshot.  Without a matching course it returns the
    body with the user's labels and no recommendation; with one, it returns
    the body with the user's labels and the first [top_n] matching courses,
    unless a returned column is missing from the whole catalog, in which
    case it raises an [HTTPException] with [status_code] 500.  What FastAPI
    makes of a returned body is outside the statement. *)
Theorem get_recommendations_on_snapshot d u n pf cf :
  1 ≤ n ≤ 50 →
  load_data d = Return (pf, cf) →
  get_recommendations d u n
  = match found_courses d u, missing_columns d with
    | [], _ =>
        Return {| user_id := u; preferences := user_labels d u; recommendations := [] |}
    | _ :: _, [] =>
        Return {| user_id := u; preferences := user_labels d u;
                  recommendations := take (Z.to_nat n) (found_courses d u) |}
    | _ :: _, m =>
        Raise (HTTPException 500 (Fstr "Error processing recommendations: "
          (HTTPException 500 (Fstr "Error recommending courses: " (KeyError m)))))
    end.
Proof.
  intros Hn (Hl & _)%load_data_inv. by apply get_recommendations_on_frames.
Qed.

Lemma get_recommendations_on_snapshot_witness :
  get_recommendations priceless_db "u1" 10
  = Raise (HTTPException 500 (Fstr "Error processing recommendations: "
      (HTTPException 500 (Fstr "Error recommending courses: " (KeyError ["price"])))))
  ∧ get_recommendations priceless_db "ghost" 10
    = Return {| user_id := "ghost"; preferences := []; recommendations := [] |}.
Proof.
  split.
  - etrans; [apply (get_recommendations_on_snapshot priceless_db "u1" 10
                      (prefs_frame priceless_db) (courses_frame priceless_db));
             [lia|vm_compute; reflexivity]|].
    vm_compute; reflexivity.
  - etrans; [apply (get_recommendations_on_snapshot priceless_db "ghost" 10
                      (prefs_frame priceless_db) (courses_frame priceless_db));
             [lia|vm_compute; reflexivity]|].
    vm_compute; reflexivity.
Defined.

(** X2.  Every failure of [get_recommendations] has status 500 and a detail
    that starts with "Error processing recommendations: ".  Its cause is
    one of three: the 400 of an out-of-range [top_n], whatever the store
    holds; the 500 of a load that lacks a column; the 500 of
    [recommend_courses] that lacks a returned column. *)
Theorem endpoint_failure_is_500 d u n e :
  get_recommendations d u n = Raise e →
  status (Raise e) = 500
  ∧ ∃ cause,
      e = HTTPException 500 (Fstr "Error processing recommendations: " cause)
      ∧ (((n < 1 ∨ 50 < n)
          ∧ cause = HTTPException 400 (Text "top_n must be between 1 and 50"))
         ∨ (1 ≤ n ≤ 50
            ∧ ∃ k, cause = HTTPException 500 (Fstr "Error loading data: " (KeyError [k])))
         ∨ (1 ≤ n ≤ 50
            ∧ ∃ ks, cause
                    = HTTPException 500 (Fstr "Error recommending courses: " (KeyError ks)))).
Proof.
  intros He.
  destruct (decide (1 ≤ n ≤ 50)) as [Hn|Hn].
  - destruct (decide (loadable d)) as [Hl|Hl].
    + rewrite (get_recommendations_on_frames d u n Hn Hl) in He.
      destruct (found_courses d u) as [|r0 found]; [done|].
      destruct (missing_columns d) as [|m ms]; [done|].
      injection He as <-. split; [done|]. eexists. split; [done|].
      right. right. eauto.
    + destruct (load_data_Raise d Hl) as [k Hk].
      unfold get_recommendations in He.
      rewrite (proj2 (top_n_check n) Hn), Hk in He. injection He as <-.
      split; [done|]. eexists. split; [done|]. right. left. eauto.
  - rewrite get_recommendations_invalid in He by lia. injection He as <-.
    split; [done|]. eexists. split; [done|]. left. split; [lia|done].
Qed.

Lemma endpoint_failure_is_500_witness :
  let e := HTTPException 500 (Fstr "Error processing recommendations: "
             (HTTPException 400 (Text "top_n must be between 1 and 50"))) in
  status (Raise e) = 500
  ∧ ∃ cause,
      e = HTTPException 500 (Fstr "Error processing recommendations: " cause)
      ∧ (((51 < 1 ∨ 50 < 51)
          ∧ cause = HTTPException 400 (Text "top_n must be between 1 and 50"))
         ∨ (1 ≤ 51 ≤ 50
            ∧ ∃ k, cause = HTTPException 500 (Fstr "Error loading data: " (KeyError [k])))
         ∨ (1 ≤ 51 ≤ 50
            ∧ ∃ ks, cause
                    = HTTPException 500 (Fstr "Error recommending courses: " (KeyError ks)))).
Proof.
  intros e. apply (endpoint_failure_is_500 sample_db "u1" 51 e).
  vm_compute; reflexivity.
Defined.

Lemma in_columns_raw_courses d c :
  c ∈ columns (raw_courses d) ↔ ∃ x, x ∈ db.courses d ∧ is_Some (db.course_dict x !! c).
Proof.
  unfold raw_courses. rewrite elem_of_columns_from_records. split.
  - intros (r & (x & -> & Hx)%list_elem_of_fmap & Hr). eauto.
  - intros (x & Hx & Hr). exists (db.course_dict x).
    split; [by apply list_elem_of_fmap_2|done].
Qed.

Lemma elem_of_missing_columns d c :
  c ∈ missing_columns d
  ↔ c ∈ returned_columns ∧ ∀ x, x ∈ db.courses d → db.course_dict x !! c = None.
Proof.
  unfold missing_columns. rewrite list_elem_of_filter, in_columns_raw_courses.
  split.
  - intros [Hn Hc]. split; [done|]. intros x Hx.
    destruct (db.course_dict x !! c) eqn:E; [|done].
    destruct Hn. exists x. by rewrite E.
  - intros [Hc Hn]. split; [|done]. intros (x & Hx & [v Hv]).
    by rewrite (Hn x Hx) in Hv.
Qed.

(** X7.  On a loaded snapshot a returned column is missing exactly when it
    is [title], [level] or [price] and no course of the catalog has it;
    [_id] and [typeRessource] are never missing. *)
Theorem missing_columns_spec d pf cf c :
  load_data d = Return (pf, cf) →
  (c ∈ missing_columns d
   ↔ (c = "title" ∧ ∀ x, x ∈ db.courses d → db.course_title x = None)
     ∨ (c = "level" ∧ ∀ x, x ∈ db.courses d → db.course_level x = None)
     ∨ (c = "price" ∧ ∀ x, x ∈ db.courses d → db.course_price x = None)).
Proof.
  intros (Hl & _)%load_data_inv.
  apply loadable_store in Hl as ((x0 & Hx0 & Hlabel) & _).
  rewrite elem_of_missing_columns. unfold returned_columns.
  rewrite !elem_of_cons, elem_of_nil. split.
  - intros [[->|[->|[->|[->|[->|[]]]]]] Hall].
    + specialize (Hall x0 Hx0). by rewrite course_dict_id in Hall.
    + left. split; [done|]. intros x Hx. specialize (Hall x Hx).
      rewrite course_dict_title in Hall. by destruct (db.course_title x).
    + specialize (Hall x0 Hx0). rewrite course_dict_label in Hall.
      by destruct (db.course_typeRessource x0).
    + right; left. split; [done|]. intros x Hx. specialize (Hall x Hx).
      rewrite course_dict_level in Hall. by destruct (db.course_level x).
    + right; right. split; [done|]. intros x Hx. specialize (Hall x Hx).
      rewrite course_dict_price in Hall. by destruct (db.course_price x).
  - intros [[-> Hall]|[[-> Hall]|[-> Hall]]]; (split; [tauto|]); intros x Hx.
    + by rewrite course_dict_title, (Hall x Hx).
    + by rewrite course_dict_level, (Hall x Hx).
    + by rewrite course_dict_price, (Hall x Hx).
Qed.

Lemma missing_columns_spec_witness :
  "price" ∈ missing_columns priceless_db
  ↔ ("price" = "title" ∧ ∀ x, x ∈ db.courses priceless_db → db.course_title x = None)
    ∨ ("price" = "level" ∧ ∀ x, x ∈ db.courses priceless_db → db.course_level x = None)
    ∨ ("price" = "price" ∧ ∀ x, x ∈ db.courses priceless_db → db.course_price x = None).
Proof.
  apply (missing_columns_spec priceless_db (prefs_frame priceless_db)
           (courses_frame priceless_db)).
  vm_compute; reflexivity.
Defined.

(** X8.  [recommend_courses] depends on the preferences of the user only as
    a set: two users (or two frames) whose preference lists have the same
    members get the same outcome, whatever the order and the repetitions. *)
Theorem recommend_courses_set_semantics u1 u2 pf1 pf2 cf n :
  (∀ c, c ∈ get_user_preferences u1 pf1 ↔ c ∈ get_user_preferences u2 pf2) →
  recommend_courses u1 pf1 cf n = recommend_courses u2 pf2 cf n.
Proof.
  intros Hsame. unfold recommend_courses. cbv zeta.
  set (l1 := get_user_preferences u1 pf1) in *.
  set (l2 := get_user_preferences u2 pf2) in *.
  assert (Hnil : bool_decide (l1 = []) = bool_decide (l2 = [])).
  { apply bool_decide_ext. split; intros E.
    - destruct l2 as [|c l2]; [done|]. assert (c ∈ l1) as Hc by (apply Hsame; left).
      rewrite E in Hc. by apply elem_of_nil in Hc.
    - destruct l1 as [|c l1]; [done|]. assert (c ∈ l2) as Hc by (apply Hsame; left).
      rewrite E in Hc. by apply elem_of_nil in Hc. }
  rewrite Hnil. destruct (bool_decide (l2 = [])); [done|].
  destruct (getitem cf "typeRessource") as [s|e]; [|done].
  cbn [mbind result_bind].
  replace (isin s l1) with (isin s l2); [done|].
  unfold isin. apply list_fmap_ext. intros _ c _. apply bool_decide_ext.
  by rewrite Hsame.
Qed.

Lemma recommend_courses_set_semantics_witness :
  recommend_courses "u1" (prefs_frame mixed_db) (courses_frame mixed_db) 10
  = recommend_courses "u2" (prefs_frame mixed_db) (courses_frame mixed_db) 10.
Proof.
  apply recommend_courses_set_semantics.
  assert (H1 : get_user_preferences "u1" (prefs_frame mixed_db) = [Str "video"; Str "video"])
    by (vm_compute; reflexivity).
  assert (H2 : get_user_preferences "u2" (prefs_frame mixed_db) = [Str "video"])
    by (vm_compute; reflexivity).
  intros c. rewrite H1, H2, !elem_of_cons. split.
  - intros [E|[E|E]]; [left; exact E|left; exact E|right; exact E].
  - intros [E|E]; [left; exact E|right; right; exact E].
Defined.

(** X9.  Lowering [top_n] truncates the answer: when the request returns
    for [n], it returns for every [m] with [1 <= m <= n], with the same
    preferences and the first [m] of the recommendations. *)
Theorem top_n_prefix d u m n r :
  1 ≤ m ≤ n →
  get_recommendations d u n = Return r →
  get_recommendations d u m
  = Return {| user_id := u; preferences := preferences r;
              recommendations := take (Z.to_nat m) (recommendations r) |}.
Proof.
  intros Hm Hr. pose proof Hr as (Hn & Hl & _)%get_recommendations_inv.
  rewrite (get_recommendations_on_frames d u n Hn Hl) in Hr.
  rewrite (get_recommendations_on_frames d u m) by (done || lia).
  destruct (found_courses d u) as [|r0 found].
  - injection Hr as <-. cbn [preferences recommendations]. by rewrite take_nil.
  - destruct (missing_columns d); [|done].
    injection Hr as <-. cbn [preferences recommendations].
    rewrite take_take, Nat.min_l by lia. done.
Qed.

Lemma top_n_prefix_witness :
  get_recommendations sample_db "u1" 10 = Return sample_response
  ∧ get_recommendations sample_db "u1" 1
    = Return {| user_id := "u1"; preferences := preferences sample_response;
                recommendations := take (Z.to_nat 1) (recommendations sample_response) |}.
Proof.
  split; [vm_compute; reflexivity|].
  apply (top_n_prefix sample_db "u1" 1 10 sample_response); [lia|].
  vm_compute; reflexivity.
Defined.

(** X10.  [recommend_courses] does not check its bound.  With every
    returned column present, [top_n = 0] gives the empty list and a
    negative [top_n] gives all the matches but the last [-top_n]. *)
Theorem recommend_courses_nonpositive_top_n d u n pf cf :
  load_data d = Return (pf, cf) →
  missing_columns d = [] →
  (n = 0 → recommend_courses u pf cf n = Return [])
  ∧ (n < 0 →
     recommend_courses u pf cf n
     = Return (take (length (found_courses d u) - Z.to_nat (- n)) (found_courses d u))).
Proof.
  intros (Hl & -> & ->)%load_data_inv Hmiss.
  rewrite (recommend_courses_on_frames d u n Hl), Hmiss. split.
  - intros ->. by destruct (found_courses d u).
  - intros Hn. unfold first_rows. rewrite (proj2 (Z.leb_gt 0 n)) by lia.
    by destruct (found_courses d u).
Qed.

Lemma recommend_courses_nonpositive_top_n_witness :
  recommend_courses "u1" (prefs_frame sample_db) (courses_frame sample_db) (-1)
  = Return (take 1 (recommendations sample_response)).
Proof.
  etrans.
  - apply (proj2 (recommend_courses_nonpositive_top_n sample_db "u1" (-1)
                    (prefs_frame sample_db) (courses_frame sample_db)
                    ltac:(vm_compute; reflexivity) ltac:(vm_compute; reflexivity))).
    lia.
  - vm_compute; reflexivity.
Defined.

Lemma course_record_label c :
  course_record c !! "typeRessource" = Some (Str (strip (lower (course_label c)))).
Proof.
  unfold course_record. rewrite !lookup_insert_ne by done. rewrite lookup_insert_eq.
  unfold course_label, normalize_course_cell.
  by destruct (db.course_typeRessource c).
Qed.

Lemma elem_of_found_courses d u rec :
  rec ∈ found_courses d u
  ↔ ∃ c, c ∈ db.courses d ∧ rec = course_record c ∧ matches (user_labels d u) rec.
Proof.
  unfold found_courses, catalog. rewrite list_elem_of_filter, list_elem_of_fmap.
  split.
  - intros [Hm (c & -> & Hc)]. eauto.
  - intros (c & Hc & -> & Hm). eauto.
Qed.

(** X11.  Every recommendation has exactly the keys [_id], [title],
    [typeRessource], [level] and [price], and is built from a course of the
    catalog: its [_id] is the string of the course's id, its label is the
    course's label ([other] when absent or null) in lower case and
    stripped, and its title and level are the stored ones, [NaN] where the
    course has none. *)
Theorem recommendation_fields d u n r rec :
  get_recommendations d u n = Return r →
  rec ∈ recommendations r →
  dom rec = list_to_set returned_columns
  ∧ ∃ c, c ∈ db.courses d
         ∧ rec !! "_id" = Some (Str (db.course_id c))
         ∧ rec !! "title" = Some (opt_cell Str (db.course_title c))
         ∧ rec !! "typeRessource" = Some (Str (strip (lower (course_label c))))
         ∧ rec !! "level" = Some (opt_cell Str (db.course_level c)).
Proof.
  intros (_ & _ & ->)%get_recommendations_inv. cbn [recommendations].
  intros Hrec%subseteq_take. fold (user_labels d u) (found_courses d u) in Hrec.
  apply elem_of_found_courses in Hrec as (c & Hc & -> & _). split.
  - unfold course_record. rewrite !dom_insert_L, dom_empty_L. reflexivity.
  - exists c. split; [done|]. rewrite course_record_label.
    unfold course_record.
    repeat split; repeat (rewrite lookup_insert_ne by done); by rewrite lookup_insert_eq.
Qed.

Lemma recommendation_fields_witness :
  let rec := course_record
    (db.mkCourse "c1" (Some "Intro") (db.Value "Video") (Some "easy") (Some 5)) in
  dom rec = list_to_set returned_columns
  ∧ ∃ c, c ∈ db.courses sample_db
         ∧ rec !! "_id" = Some (Str (db.course_id c))
         ∧ rec !! "title" = Some (opt_cell Str (db.course_title c))
         ∧ rec !! "typeRessource" = Some (Str (strip (lower (course_label c))))
         ∧ rec !! "level" = Some (opt_cell Str (db.course_level c)).
Proof.
  intros rec.
  apply (recommendation_fields sample_db "u1" 10 sample_response).
  - vm_compute; reflexivity.
  - left.
Defined.

Lemma matches_course_record d u c :
  matches (user_labels d u) (course_record c)
  ↔ ∃ p x, p ∈ db.preferences d
           ∧ default "nan" (db.pref_user p) = u
           ∧ db.pref_typeRessource p = Some x
           ∧ strip (lower x) = strip (lower (course_label c)).
Proof.
  unfold matches, at_. rewrite course_record_label; simpl.
  rewrite user_labels_alt, list_elem_of_fmap. split.
  - intros (p & Hp & [Hu Hin]%list_elem_of_filter).
    destruct (db.pref_typeRessource p) as [x|] eqn:Hx; simpl in Hp; [|done].
    injection Hp as Hp. exists p, x. by rewrite Hp.
  - intros (p & x & Hin & Hu & Hx & E). exists p. split.
    + by rewrite Hx; simpl; rewrite E.
    + by apply list_elem_of_filter.
Qed.

(** X12.  A course is recommended only if some preference document of the
    user has a label equal to the course's label up to case and
    surrounding white space; and every such course is recommended when at
    most [top_n] courses match. *)
Theorem recommended_iff_label_matches d u n r c :
  get_recommendations d u n = Return r →
  c ∈ db.courses d →
  let liked :=
    ∃ p x, p ∈ db.preferences d
           ∧ default "nan" (db.pref_user p) = u
           ∧ db.pref_typeRessource p = Some x
           ∧ strip (lower x) = strip (lower (course_label c)) in
  (course_record c ∈ recommendations r → liked)
  ∧ (liked → (length (found_courses d u) ≤ Z.to_nat n)%nat →
     course_record c ∈ recommendations r).
Proof.
  intros (_ & _ & ->)%get_recommendations_inv Hc liked. cbn [recommendations].
  fold (user_labels d u) (found_courses d u). split.
  - intros Hrec%subseteq_take.
    apply elem_of_found_courses in Hrec as (_ & _ & _ & Hm).
    by apply matches_course_record in Hm.
  - intros Hliked Hlen. rewrite take_ge by done.
    apply elem_of_found_courses. exists c. repeat split; [done|].
    by apply matches_course_record.
Qed.

Lemma recommended_iff_label_matches_witness :
  let c := db.mkCourse "c4" (Some "Outro") (db.Value "VIDEO ") (Some "hard") (Some 7) in
  let liked :=
    ∃ p x, p ∈ db.preferences sample_db
           ∧ default "nan" (db.pref_user p) = "u1"
           ∧ db.pref_typeRessource p = Some x
           ∧ strip (lower x) = strip (lower (course_label c)) in
  (course_record c ∈ recommendations sample_response → liked)
  ∧ (liked → (length (found_courses sample_db "u1") ≤ Z.to_nat 10)%nat →
     course_record c ∈ recommendations sample_response).
Proof.
  intros c.
  apply (recommended_iff_label_matches sample_db "u1" 10 sample_response c).
  - vm_compute; reflexivity.
  - right; right; right; left.
Defined.

(** X13.  A preference document without a [user] field is attributed to
    the user id ["nan"]: on a loaded snapshot its label is among the
    preferences of ["nan"]. *)
Theorem missing_user_served_as_nan d pf cf p :
  load_data d = Return (pf, cf) →
  p ∈ db.preferences d →
  db.pref_user p = None →
  from_option (λ x, Str (strip (lower x))) NaN (db.pref_typeRessource p)
  ∈ get_user_preferences "nan" pf.
Proof.
  intros (Hl & -> & ->)%load_data_inv Hp Hu.
  rewrite (get_user_preferences_loaded d "nan" Hl).
  fold (user_labels d "nan"). rewrite user_labels_alt.
  apply list_elem_of_fmap. exists p. split; [done|].
  apply list_elem_of_filter. by rewrite Hu.
Qed.

Lemma missing_user_served_as_nan_witness :
  get_user_preferences "nan" (prefs_frame mixed_db) = [Str "quiz"]
  ∧ from_option (λ x, Str (strip (lower x))) NaN
      (db.pref_typeRessource (db.mkPreference None (Some "quiz")))
    ∈ get_user_preferences "nan" (prefs_frame mixed_db).
Proof.
  split; [vm_compute; reflexivity|].
  apply (missing_user_served_as_nan mixed_db (prefs_frame mixed_db)
           (courses_frame mixed_db)).
  - vm_compute; reflexivity.
  - right; right; right; left.
  - reflexivity.
Defined.

(** X14.  The two normalisation steps commute: lower case then strip, as
    [load_data] applies them, equals strip then lower case, on a label and
    on a column. *)
Theorem lower_strip_commute :
  (∀ x : string, strip (lower x) = lower (strip x))
  ∧ (∀ s : Series, str_strip (str_lower s) = str_lower (str_strip s)).
Proof.
  split; [apply strip_lower|].
  intros s. unfold str_strip, str_lower. rewrite <-!list_fmap_compose.
  apply list_fmap_ext. intros _ c _. simpl.
  destruct c; simpl; try done. by rewrite strip_lower.
Qed.

(** X15.  When the courses of the catalog have distinct ids, no id occurs
    twice among the recommendations. *)
Theorem recommendations_distinct d u n r :
  get_recommendations d u n = Return r →
  NoDup (db.course_id <$> db.courses d) →
  NoDup ((λ rec : gmap string cell, rec !! "_id") <$> recommendations r).
Proof.
  intros (_ & _ & ->)%get_recommendations_inv Hids. cbn [recommendations].
  eapply sublist_NoDup.
  2:{ apply fmap_sublist. etrans; [apply sublist_take|apply sublist_filter]. }
  unfold catalog. rewrite <-list_fmap_compose.
  assert (E : ((λ rec : gmap string cell, rec !! "_id") ∘ course_record <$> db.courses d)
              = (λ x, Some (Str x)) <$> (db.course_id <$> db.courses d)).
  { rewrite <-list_fmap_compose. apply list_fmap_ext. intros _ c _. simpl.
    unfold course_record. by rewrite lookup_insert_eq. }
  rewrite E. apply NoDup_fmap_2; [|done]. by intros x y [= ->].
Qed.

Lemma recommendations_distinct_witness :
  NoDup ((λ rec : gmap string cell, rec !! "_id") <$> recommendations sample_response).
Proof.
  apply (recommendations_distinct sample_db "u1" 10 sample_response).
  - vm_compute; reflexivity.
  - apply (bool_decide_unpack _). vm_compute. exact I.
Defined.

(** X16.  The frames [load_data] returns have one row per document, in
    collection order.  A preference row holds the user as a string (["nan"]
    without one) and the label in lower case and stripped ([NaN] without
    one); a course row holds the id as a string, the label in lower case
    and stripped ([other] when absent or null), and the title and level as
    stored. *)
Theorem load_data_rows d pf cf :
  load_data d = Return (pf, cf) →
  length (rows pf) = length (db.preferences d)
  ∧ length (rows cf) = length (db.courses d)
  ∧ (∀ i p, db.preferences d !! i = Some p →
       ∃ r, rows pf !! i = Some r
            ∧ at_ r "user" = Str (default "nan" (db.pref_user p))
            ∧ at_ r "typeRessource"
              = from_option (λ x, Str (strip (lower x))) NaN (db.pref_typeRessource p))
  ∧ (∀ i c, db.courses d !! i = Some c →
       ∃ r, rows cf !! i = Some r
            ∧ at_ r "_id" = Str (db.course_id c)
            ∧ at_ r "typeRessource" = Str (strip (lower (course_label c)))
            ∧ at_ r "title" = opt_cell Str (db.course_title c)
            ∧ at_ r "level" = opt_cell Str (db.course_level c)).
Proof.
  intros (_ & -> & ->)%load_data_inv. cbn [rows prefs_frame courses_frame].
  rewrite !length_fmap. repeat split.
  - intros i p Hp. exists (preference_row p).
    rewrite list_lookup_fmap, Hp. split; [done|].
    by rewrite at_preference_row_user, at_preference_row_label, user_str_alt,
      preference_label_alt.
  - intros i c Hc. exists (course_row c).
    rewrite list_lookup_fmap, Hc. split; [done|].
    rewrite at_course_row_id, at_course_row_title, at_course_row_level,
      at_course_row_label.
    repeat split. unfold normalize_course_cell, course_label.
    by destruct (db.course_typeRessource c).
Qed.

Lemma load_data_rows_witness :
  length (rows (prefs_frame sample_db)) = length (db.preferences sample_db)
  ∧ length (rows (courses_frame sample_db)) = length (db.courses sample_db)
  ∧ (∀ i p, db.preferences sample_db !! i = Some p →
       ∃ r, rows (prefs_frame sample_db) !! i = Some r
            ∧ at_ r "user" = Str (default "nan" (db.pref_user p))
            ∧ at_ r "typeRessource"
              = from_option (λ x, Str (strip (lower x))) NaN (db.pref_typeRessource p))
  ∧ (∀ i c, db.courses sample_db !! i = Some c →
       ∃ r, rows (courses_frame sample_db) !! i = Some r
            ∧ at_ r "_id" = Str (db.course_id c)
            ∧ at_ r "typeRessource" = Str (strip (lower (course_label c)))
            ∧ at_ r "title" = opt_cell Str (db.course_title c)
            ∧ at_ r "level" = opt_cell Str (db.course_level c)).
Proof.
  apply (load_data_rows sample_db). vm_compute; reflexivity.
Defined.
